(** * Sparkify data-lake ETL ([etl.py]): a shallow embedding

    The job reads two collections of JSON records (the song catalog and the
    user activity log), derives five tables and writes each one as a parquet
    data set.

    - A data frame is the list of its columns and the list of its rows; every
      JSON column is nullable, so a column holds an [option].  The reader
      infers the columns from the JSON objects: a key that no object has is
      no column of the frame, and naming it in a select raises.  Keys under
      names the job never uses are left out of the objects, the columns and
      the rows.
    - The effects are the log lines and the writes to the output store; a
      raised exception leaves the store as it is at that moment.
    - Python's [datetime] and the Spark functions are library code: they are
      modelled from their documented behaviour, with one fixed UTC offset
      for the local zone of Python and the session zone of Spark, and the
      proleptic Gregorian calendar.
    - Spark decides how the joined rows are laid out in partitions; the
      layout is a parameter of the session. *)

From Stdlib Require Import ZArith QArith Qcanon Lia.
From stdpp Require Import numbers strings gmap sorting list.

Open Scope Z_scope.

(** ** Column types *)

(** A finite double, kept as the rational it denotes; [Qc] is canonical, so
    Leibniz equality is equality of values, as [dropDuplicates] needs. *)
Abbreviation double := Qc.

(** SQL equality [a == b]: null when either side is null. *)
Definition sql_eq {A} `{EqDecision A} (a b : option A) : option bool :=
  match a, b with
  | Some x, Some y => Some (bool_decide (x = y))
  | _, _ => None
  end.

(** A filter or a join condition keeps a row only when it is true. *)
Definition is_true (c : option bool) : bool :=
  match c with
  | Some true => true
  | _ => false
  end.

(** [DataFrame.dropDuplicates()] without a column subset: rows that agree on
    every column are collapsed into one. *)
Definition dropDuplicates {A} `{EqDecision A} (df : list A) : list A :=
  remove_dups df.

(** The name of a column of a frame. *)
Class Named (C : Type) := column_name : C → string.

(** ** Input records *)

(** One catalog record of [song_data]. *)
Module SongData.
Record t := mk {
  song_id : option string;
  title : option string;
  artist_id : option string;
  year : option Z;
  duration : option double;
  artist_name : option string;
  artist_location : option string;
  artist_latitude : option double;
  artist_longitude : option double
}.
#[global] Instance eq_dec : EqDecision t.
Proof. solve_decision. Defined.

(** The columns a frame of catalog records can have. *)
Inductive column :=
| c_song_id
| c_title
| c_artist_id
| c_year
| c_duration
| c_artist_name
| c_artist_location
| c_artist_latitude
| c_artist_longitude.
#[global] Instance column_eq_dec : EqDecision column.
Proof. solve_decision. Defined.

#[global] Instance column_named : Named column :=
  λ c, match c with
       | c_song_id => "song_id"
       | c_title => "title"
       | c_artist_id => "artist_id"
       | c_year => "year"
       | c_duration => "duration"
       | c_artist_name => "artist_name"
       | c_artist_location => "artist_location"
       | c_artist_latitude => "artist_latitude"
       | c_artist_longitude => "artist_longitude"
       end.
End SongData.

(** One activity record of [log_data]. *)
Module LogData.
Record t := mk {
  userId : option string;
  firstName : option string;
  lastName : option string;
  gender : option string;
  level : option string;
  page : option string;
  ts : option Z;
  artist : option string;
  sessionId : option Z;
  location : option string;
  userAgent : option string
}.
#[global] Instance eq_dec : EqDecision t.
Proof. solve_decision. Defined.

(** The columns a frame of activity records can have. *)
Inductive column :=
| c_userId
| c_firstName
| c_lastName
| c_gender
| c_level
| c_page
| c_ts
| c_artist
| c_sessionId
| c_location
| c_userAgent.
#[global] Instance column_eq_dec : EqDecision column.
Proof. solve_decision. Defined.

#[global] Instance column_named : Named column :=
  λ c, match c with
       | c_userId => "userId"
       | c_firstName => "firstName"
       | c_lastName => "lastName"
       | c_gender => "gender"
       | c_level => "level"
       | c_page => "page"
       | c_ts => "ts"
       | c_artist => "artist"
       | c_sessionId => "sessionId"
       | c_location => "location"
       | c_userAgent => "userAgent"
       end.
End LogData.

(** ** JSON objects *)

(** What a JSON object holds under a key: nothing, null, or a value. *)
Module Json.
Inductive field (A : Type) :=
| Absent
| Null
| Value (a : A).
Arguments Absent {A}.
Arguments Null {A}.
Arguments Value {A} a.

(** The column value of the row read from the object: null unless the
    object gives a value. *)
Definition get {A} (f : field A) : option A :=
  match f with
  | Value a => Some a
  | _ => None
  end.

(** The key, when the object has it. *)
Definition key {C A} (c : C) (f : field A) : list C :=
  match f with
  | Absent => []
  | _ => [c]
  end.
End Json.

(** A JSON object of [song_data], its keys and the row read from it. *)
Module SongJson.
Record t := mk {
  song_id : Json.field string;
  title : Json.field string;
  artist_id : Json.field string;
  year : Json.field Z;
  duration : Json.field double;
  artist_name : Json.field string;
  artist_location : Json.field string;
  artist_latitude : Json.field double;
  artist_longitude : Json.field double
}.

Definition keys (j : t) : list SongData.column :=
  Json.key SongData.c_song_id (song_id j) ++ Json.key SongData.c_title (title j)
  ++ Json.key SongData.c_artist_id (artist_id j) ++ Json.key SongData.c_year (year j)
  ++ Json.key SongData.c_duration (duration j)
  ++ Json.key SongData.c_artist_name (artist_name j)
  ++ Json.key SongData.c_artist_location (artist_location j)
  ++ Json.key SongData.c_artist_latitude (artist_latitude j)
  ++ Json.key SongData.c_artist_longitude (artist_longitude j).

Definition row (j : t) : SongData.t :=
  SongData.mk (Json.get (song_id j)) (Json.get (title j)) (Json.get (artist_id j))
    (Json.get (year j)) (Json.get (duration j)) (Json.get (artist_name j))
    (Json.get (artist_location j)) (Json.get (artist_latitude j))
    (Json.get (artist_longitude j)).
End SongJson.

(** A JSON object of [log_data], its keys and the row read from it. *)
Module LogJson.
Record t := mk {
  userId : Json.field string;
  firstName : Json.field string;
  lastName : Json.field string;
  gender : Json.field string;
  level : Json.field string;
  page : Json.field string;
  ts : Json.field Z;
  artist : Json.field string;
  sessionId : Json.field Z;
  location : Json.field string;
  userAgent : Json.field string
}.

Definition keys (j : t) : list LogData.column :=
  Json.key LogData.c_userId (userId j) ++ Json.key LogData.c_firstName (firstName j)
  ++ Json.key LogData.c_lastName (lastName j) ++ Json.key LogData.c_gender (gender j)
  ++ Json.key LogData.c_level (level j) ++ Json.key LogData.c_page (page j)
  ++ Json.key LogData.c_ts (ts j) ++ Json.key LogData.c_artist (artist j)
  ++ Json.key LogData.c_sessionId (sessionId j)
  ++ Json.key LogData.c_location (location j)
  ++ Json.key LogData.c_userAgent (userAgent j).

Definition row (j : t) : LogData.t :=
  LogData.mk (Json.get (userId j)) (Json.get (firstName j)) (Json.get (lastName j))
    (Json.get (gender j)) (Json.get (level j)) (Json.get (page j))
    (Json.get (ts j)) (Json.get (artist j)) (Json.get (sessionId j))
    (Json.get (location j)) (Json.get (userAgent j)).
End LogJson.

(** ** Output rows *)

Module Songs.
Record t := mk {
  song_id : option string;
  title : option string;
  artist_id : option string;
  year : option Z;
  duration : option double
}.
#[global] Instance eq_dec : EqDecision t.
Proof. solve_decision. Defined.
End Songs.

Module Artists.
Record t := mk {
  artist_id : option string;
  name : option string;
  location : option string;
  latitude : option double;
  longitude : option double
}.
#[global] Instance eq_dec : EqDecision t.
Proof. solve_decision. Defined.
End Artists.

Module Users.
Record t := mk {
  user_id : option string;
  first_name : option string;
  last_name : option string;
  gender : option string;
  level : option string
}.
#[global] Instance eq_dec : EqDecision t.
Proof. solve_decision. Defined.
End Users.

(** A Spark timestamp: microseconds since the Unix epoch. *)
Abbreviation timestamp := Z.

Module Time.
Record t := mk {
  start_time : timestamp;
  hour : Z;
  day : Z;
  week : Z;
  month : Z;
  year : Z;
  weekday : Z
}.
#[global] Instance eq_dec : EqDecision t.
Proof. solve_decision. Defined.
End Time.

Module Songplays.
Record t := mk {
  songplay_id : Z;
  start_time : timestamp;
  user_id : option string;
  level : option string;
  song_id : option string;
  artist_id : option string;
  session_id : option Z;
  location : option string;
  user_agent : option string;
  month : Z;
  year : Z
}.
#[global] Instance eq_dec : EqDecision t.
Proof. solve_decision. Defined.
End Songplays.

(** ** Binary64 arithmetic

    Python floats are IEEE-754 doubles.  A finite double is kept as the dyadic
    rational [mant * 2 ^ expo]; every operation computes the exact rational
    result and rounds it to the nearest double, ties to even.  Overflow to
    infinity is left out: no magnitude here reaches [2 ^ 1024]. *)
Module Binary64.

Record float := mk { mant : Z; expo : Z }.

(** Nearest integer to [n / d] for [0 < d], ties to the even one. *)
Definition round_half_even (n d : Z) : Z :=
  let q := n / d in
  let r := n mod d in
  if 2 * r <? d then q
  else if d <? 2 * r then q + 1
  else if Z.even q then q else q + 1.

(** [floor (log2 (n / d))] for [0 < n] and [0 < d]. *)
Definition ilog2 (n d : Z) : Z :=
  let k := Z.log2 n - Z.log2 d in
  if (if 0 <=? k then d * 2 ^ k <=? n else d <=? n * 2 ^ (- k))
  then k else k - 1.

(** Exponent of the least subnormal. *)
Definition emin : Z := -1074.

(** The double nearest to [n / d], for [0 < d]: 53 significant bits. *)
Definition rn (n d : Z) : float :=
  if n =? 0 then mk 0 0
  else
    let e := Z.max (ilog2 (Z.abs n) d - 52) emin in
    mk (if 0 <=? e then round_half_even n (d * 2 ^ e)
        else round_half_even (n * 2 ^ (- e)) d) e.

(** [float(x)] of a Python int. *)
Definition of_int (x : Z) : float := rn x 1.

(** [a / b] on floats, for a divisor other than zero. *)
Definition truediv (a b : float) : float :=
  let sh := expo a - expo b in
  let n := mant a * 2 ^ Z.max sh 0 in
  let d := mant b * 2 ^ Z.max (- sh) 0 in
  if 0 <? d then rn n d else rn (- n) (- d).

(** [a * b] on floats. *)
Definition mul (a b : float) : float :=
  let e := expo a + expo b in
  let m := mant a * mant b in
  if 0 <=? e then rn (m * 2 ^ e) 1 else rn m (2 ^ (- e)).

(** C's [modf]: the integral part (truncated towards zero) and the
    fractional part, both exact and with the sign of the argument. *)
Definition modf (a : float) : float * Z :=
  if 0 <=? expo a then (mk 0 0, mant a * 2 ^ expo a)
  else
    let d := 2 ^ (- expo a) in
    (mk (Z.rem (mant a) d) (expo a), Z.quot (mant a) d).

(** [round()] of a float to an integer, ties to even. *)
Definition round (a : float) : Z :=
  if 0 <=? expo a then mant a * 2 ^ expo a
  else round_half_even (mant a) (2 ^ (- expo a)).

(** The literals [1000.0] and [1e6]. *)
Definition f1000 : float := mk 1000 0.
Definition f1e6 : float := mk 1000000 0.

End Binary64.

(** ** Calendar arithmetic (proleptic Gregorian) *)
Module Calendar.

(** Year, month and day of the day numbered [z] from 1970-01-01. *)
Definition civil_from_days (z : Z) : Z * Z * Z :=
  let z := z + 719468 in
  let era := z / 146097 in
  let doe := z - era * 146097 in
  let yoe := (doe - doe / 1460 + doe / 36524 - doe / 146096) / 365 in
  let y := yoe + era * 400 in
  let doy := doe - (365 * yoe + yoe / 4 - yoe / 100) in
  let mp := (5 * doy + 2) / 153 in
  let d := doy - (153 * mp + 2) / 5 + 1 in
  let m := if mp <? 10 then mp + 3 else mp - 9 in
  (if m <=? 2 then y + 1 else y, m, d).

(** Number of the day [y]-[m]-[d], from 1970-01-01. *)
Definition days_from_civil (y m d : Z) : Z :=
  let y := if m <=? 2 then y - 1 else y in
  let era := y / 400 in
  let yoe := y - era * 400 in
  let doy := (153 * (if 2 <? m then m - 3 else m + 9) + 2) / 5 + d - 1 in
  let doe := yoe * 365 + yoe / 4 - yoe / 100 + doy in
  era * 146097 + doe - 719468.

Definition year_of (z : Z) : Z := (civil_from_days z).1.1.
Definition month_of (z : Z) : Z := (civil_from_days z).1.2.
Definition day_of (z : Z) : Z := (civil_from_days z).2.

(** Day of the week, 0 = Sunday .. 6 = Saturday; day 0 was a Thursday. *)
Definition weekday_of (z : Z) : Z := (z + 4) mod 7.

(** ISO-8601 week number: the week belongs to the year of its Thursday. *)
Definition iso_week_of (z : Z) : Z :=
  let monday0 := (z + 3) mod 7 in
  let thursday := z - monday0 + 3 in
  let jan1 := days_from_civil (year_of thursday) 1 1 in
  (thursday - jan1) / 7 + 1.

End Calendar.

(** ** Exceptions *)

Inductive exn := TypeError | ValueError | AttributeError | AnalysisException.

(** A value that is computed when an action needs it, or the exception that
    computing it raises. *)
Inductive result (A : Type) :=
| Ok (a : A)
| Raise (e : exn).
Arguments Ok {A} a.
Arguments Raise {A} e.

Definition result_bind {A B} (f : A → result B) (r : result A) : result B :=
  match r with
  | Ok a => f a
  | Raise e => Raise e
  end.

#[global] Instance result_mbind : MBind result := @result_bind.
#[global] Instance result_mret : MRet result := @Ok.
#[global] Instance result_fmap : FMap result :=
  λ A B f r, match r with Ok a => Ok (f a) | Raise e => Raise e end.

(** Evaluate [f] on every row; the first exception aborts the task. *)
Fixpoint for_each {A B} (f : A → result B) (rows : list A) : result (list B) :=
  match rows with
  | [] => Ok []
  | r :: rows =>
      match f r with
      | Ok b => match for_each f rows with
                | Ok bs => Ok (b :: bs)
                | Raise e => Raise e
                end
      | Raise e => Raise e
      end
  end.

(** ** The parts of Python's [datetime] the job uses *)
Module Python.
Import Binary64.

(** A naive local [datetime]: [wall] counts the seconds of the wall clock
    from 1970-01-01T00:00:00, [microsecond] is in [0, 10^6). *)
Record datetime := mk { wall : Z; microsecond : Z }.

Definition MINYEAR : Z := 1.
Definition MAXYEAR : Z := 9999.

(** Seconds and microseconds of a float timestamp, rounding half to even
    (what [datetime.fromtimestamp] does with its argument). *)
Definition double_to_timeval (t : float) : Z * Z :=
  let '(floatpart, intpart) := modf t in
  let us := round (mul floatpart f1e6) in
  if 1000000 <=? us then (intpart + 1, us - 1000000)
  else if us <? 0 then (intpart - 1, us + 1000000)
  else (intpart, us).

(** [datetime.fromtimestamp(t)] in a zone [tz] seconds east of UTC; a year
    outside [MINYEAR .. MAXYEAR] raises [ValueError]. *)
Definition fromtimestamp (tz : Z) (t : float) : result datetime :=
  let '(sec, us) := double_to_timeval t in
  let local := sec + tz in
  if bool_decide (Calendar.days_from_civil MINYEAR 1 1 ≤ local / 86400
                  ≤ Calendar.days_from_civil MAXYEAR 12 31)
  then Ok (mk local us)
  else Raise ValueError.

End Python.

(** ** The parts of Spark SQL the job uses *)
Module Spark.

(** [TimestampType.toInternal]: the instant of a naive local datetime, in
    microseconds. *)
Definition toInternal (tz : Z) (dt : Python.datetime) : timestamp :=
  (Python.wall dt - tz) * 1000000 + Python.microsecond dt.

(** Wall-clock seconds and days of an instant in the session time zone. *)
Definition local_seconds (tz : Z) (t : timestamp) : Z := t / 1000000 + tz.
Definition local_days (tz : Z) (t : timestamp) : Z := local_seconds tz t / 86400.

Definition hour (tz : Z) (t : timestamp) : Z :=
  (local_seconds tz t mod 86400) / 3600.
Definition dayofmonth (tz : Z) (t : timestamp) : Z :=
  Calendar.day_of (local_days tz t).
Definition weekofyear (tz : Z) (t : timestamp) : Z :=
  Calendar.iso_week_of (local_days tz t).
Definition month (tz : Z) (t : timestamp) : Z :=
  Calendar.month_of (local_days tz t).
Definition year (tz : Z) (t : timestamp) : Z :=
  Calendar.year_of (local_days tz t).

(** [dayofweek]: 1 = Sunday, 2 = Monday, ..., 7 = Saturday. *)
Definition dayofweek (tz : Z) (t : timestamp) : Z :=
  Calendar.weekday_of (local_days tz t) + 1.

(** A Java [long]: 64 bits, two's complement. *)
Definition wrap64 (z : Z) : Z := (z + 2 ^ 63) mod 2 ^ 64 - 2 ^ 63.

(** [monotonically_increasing_id()]: the partition index in the upper 31
    bits, the number of the record within its partition in the lower 33. *)
Definition monotonically_increasing_id (partition record : nat) : Z :=
  wrap64 (Z.shiftl (Z.of_nat partition) 33 + Z.of_nat record).

(** The physical layout of a data frame: the rows cut into partitions of the
    given sizes, what is left over forming the last partition. *)
Fixpoint partitions {A} (sizes : list nat) (rows : list A) : list (list A) :=
  match sizes with
  | [] => [rows]
  | n :: sizes => take n rows :: partitions sizes (drop n rows)
  end.

(** [withColumn(c, monotonically_increasing_id())] over a partitioned frame. *)
Definition with_id {A} (parts : list (list A)) : list (Z * A) :=
  concat (imap (λ p part, imap (λ i row, (monotonically_increasing_id p i, row)) part) parts).

(** [df.join(other, on, 'inner')]: the pairs of rows on which the condition
    is true. *)
Definition join {A B} (on : A → B → option bool) (df : list A) (other : list B)
  : list (A * B) :=
  r ← df; (λ s, (r, s)) <$> filter (λ s, is_true (on r s) = true) other.

(** A data frame: its columns and its rows. *)
Record DataFrame (C A : Type) := { schema : list C; rows : list A }.
Arguments schema {C A} _.
Arguments rows {C A} _.

(** [df.columns], as a set of names. *)
Definition columns {C A} `{Named C} (df : DataFrame C A) : gset string :=
  list_to_set (column_name <$> schema df).

(** The frame [spark.read.json] makes of a collection of JSON objects: the
    inferred columns are the keys that occur in some object, and every
    object is a row, null where it has no value. *)
Definition infer_json {J C A} (keys : J → list C) (row : J → A)
    (objects : list J) : DataFrame C A :=
  {| schema := objects ≫= keys; rows := row <$> objects |}.

(** Every name of a select is a column of the frame. *)
Definition has_columns (names : list string) (cols : gset string) : Prop :=
  Forall (λ name, name ∈ cols) names.

(** In a joined frame a name resolves when exactly one side has a column of
    that name. *)
Definition joined_has_columns (names : list string) (left right : gset string)
  : Prop :=
  Forall (λ name, (name ∈ left ∧ ¬ name ∈ right) ∨ (¬ name ∈ left ∧ name ∈ right)) names.

(** The columns after [withColumn(name, ...)] for each of the names; it
    replaces a column of that name or adds one. *)
Definition withColumns (names : list string) (cols : gset string) : gset string :=
  cols ∪ list_to_set names.

(** The left columns of a joined frame after [withColumn(name, ...)]: the
    column is added unless a side has it already. *)
Definition withColumn_joined (name : string) (left right : gset string)
  : gset string :=
  if decide (name ∈ right) then left else left ∪ {[name]}.

(** The columns after [withColumnRenamed(existing, new)], which does
    nothing when there is no column [existing]. *)
Definition withColumnRenamed (existing new : string) (cols : gset string)
  : gset string :=
  if decide (existing ∈ cols) then {[new]} ∪ (cols ∖ {[existing]}) else cols.

(** The session: the frames its reader makes of the JSON data sets under a
    path ([None] when the path matches nothing), the session time zone in
    seconds east of UTC, and the partition sizes the planner gives the
    join. *)
Record SparkSession := {
  read_song_json : string → option (DataFrame SongData.column SongData.t);
  read_log_json : string → option (DataFrame LogData.column LogData.t);
  time_zone : Z;
  join_partitions : list nat
}.

End Spark.

(** ** The output store and the job monad *)

(** The rows of a written data set, by table. *)
Inductive frame :=
| SongsFrame (rows : list Songs.t)
| ArtistsFrame (rows : list Artists.t)
| UsersFrame (rows : list Users.t)
| TimeFrame (rows : list Time.t)
| SongplaysFrame (rows : list Songplays.t).

(** A parquet data set: its partition columns and its rows. *)
Record parquet := { partition_by : list string; data : frame }.

(** What a run leaves behind: the data sets by path, and the log lines. *)
Record world := { store : gmap string parquet; logged : list string }.

(** An action changes the world and returns or raises; the world an
    exception leaves is the one reached when it was raised. *)
Definition job (A : Type) : Type := world → world * result A.

Definition job_bind {A B} (f : A → job B) (m : job A) : job B :=
  λ w, match m w with
       | (w', Ok a) => f a w'
       | (w', Raise e) => (w', Raise e)
       end.

#[global] Instance job_mbind : MBind job := @job_bind.
#[global] Instance job_mret : MRet job := λ A a w, (w, Ok a).

(** [logger.info(msg)] *)
Definition logger_info (msg : string) : job unit :=
  λ w, ({| store := store w; logged := logged w ++ [msg] |}, Ok ()).

(** [spark.read.json(path)]: no file under the path is an
    [AnalysisException]. *)
Definition read_json {C A} (reader : string → option (Spark.DataFrame C A))
    (path : string) : job (Spark.DataFrame C A) :=
  λ w, match reader path with
       | Some df => (w, Ok df)
       | None => (w, Raise AnalysisException)
       end.

(** [df[[names]]] and [df[name]] are analysed when they are built: a name
    that is no column of the frame is an [AnalysisException].  The rows of
    the selection are made by the table functions below. *)
Definition select (names : list string) (cols : gset string) : job unit :=
  λ w, if decide (Spark.has_columns names cols)
       then (w, Ok ()) else (w, Raise AnalysisException).

(** The same for a select on a joined frame. *)
Definition select_joined (names : list string) (left right : gset string)
  : job unit :=
  λ w, if decide (Spark.joined_has_columns names left right)
       then (w, Ok ()) else (w, Raise AnalysisException).

(** [df.name]: Python raises [AttributeError] when the frame has no such
    column. *)
Definition getattr (name : string) (cols : gset string) : job unit :=
  λ w, if decide (name ∈ cols) then (w, Ok ()) else (w, Raise AttributeError).

(** [df.write.partitionBy(cols).parquet(path)] in the default save mode: an
    existing path is an [AnalysisException]; otherwise the frame is
    evaluated, and written when that raised nothing. *)
Definition write_parquet (cols : list string) (path : string) (df : result frame)
  : job unit :=
  λ w, match store w !! path with
       | Some _ => (w, Raise AnalysisException)
       | None =>
           match df with
           | Ok rows =>
               ({| store := <[path := {| partition_by := cols; data := rows |}]> (store w);
                   logged := logged w |}, Ok ())
           | Raise e => (w, Raise e)
           end
       end.

(** ** [process_song_data] *)

(** The columns of the two selects. *)
Definition songs_columns : list string :=
  ["song_id"; "title"; "artist_id"; "year"; "duration"].

Definition artists_columns : list string :=
  ["artist_id"; "artist_name"; "artist_location"; "artist_latitude";
   "artist_longitude"].

Definition songs_table (df : list SongData.t) : list Songs.t :=
  let songs_table :=
    (λ r, Songs.mk (SongData.song_id r) (SongData.title r) (SongData.artist_id r)
            (SongData.year r) (SongData.duration r)) <$> df in
  dropDuplicates songs_table.

Definition artists_table (df : list SongData.t) : list Artists.t :=
  let artists_table :=
    (λ r, Artists.mk (SongData.artist_id r) (SongData.artist_name r)
            (SongData.artist_location r) (SongData.artist_latitude r)
            (SongData.artist_longitude r)) <$> df in
  dropDuplicates artists_table.

Definition process_song_data (spark : Spark.SparkSession)
  (input_data output_data : string) : job unit :=
  let song_data := input_data +:+ "/song_data/*/*/*/*.json" in
  logger_info "Reading song data json files";;
  df ← read_json (Spark.read_song_json spark) song_data;
  select songs_columns (Spark.columns df);;
  logger_info "Writing song table partitioned by year and artist_id in parquet format";;
  write_parquet ["year"; "artist_id"] (output_data +:+ "/tbl_songs.parquet")
    (Ok (SongsFrame (songs_table (Spark.rows df))));;
  select artists_columns (Spark.columns df);;
  logger_info "Writing artists table in parquet format";;
  write_parquet [] (output_data +:+ "/tbl_artists.parquet")
    (Ok (ArtistsFrame (artists_table (Spark.rows df)))).

(** ** [process_log_data] *)

(** A row of the log frame once the time columns are added. *)
Module LogRow.
Record t := mk {
  rec : LogData.t;
  start_time : timestamp;
  hour : Z;
  day : Z;
  week : Z;
  month : Z;
  year : Z;
  weekday : Z
}.
End LogRow.

(** The columns of the selects, and the seven that [withColumn] adds. *)
Definition users_columns : list string :=
  ["userId"; "firstName"; "lastName"; "gender"; "level"].

Definition time_columns : list string :=
  ["start_time"; "hour"; "day"; "week"; "month"; "year"; "weekday"].

Definition songplays_columns : list string :=
  ["songplay_id"; "start_time"; "userId"; "level"; "song_id"; "artist_id";
   "sessionId"; "location"; "userAgent"; "month"; "year"].

(** [df[df['page'] == 'NextSong']] *)
Definition filter_next_song (df : list LogData.t) : list LogData.t :=
  filter (λ r, is_true (sql_eq (LogData.page r) (Some "NextSong")) = true) df.

Definition users_table (df : list LogData.t) : list Users.t :=
  let users_table :=
    (λ r, Users.mk (LogData.userId r) (LogData.firstName r) (LogData.lastName r)
            (LogData.gender r) (LogData.level r)) <$> df in
  dropDuplicates users_table.

(** [udf(lambda x: datetime.fromtimestamp(x / 1000.0), TimestampType())]:
    a null [x] makes the division raise [TypeError]. *)
Definition get_timestamp (tz : Z) (x : option Z) : result timestamp :=
  match x with
  | None => Raise TypeError
  | Some x =>
      Spark.toInternal tz <$>
        Python.fromtimestamp tz (Binary64.truediv (Binary64.of_int x) Binary64.f1000)
  end.

(** The seven [withColumn] calls, on one row. *)
Definition with_time_columns (tz : Z) (r : LogData.t) : result LogRow.t :=
  start_time ← get_timestamp tz (LogData.ts r);
  mret (LogRow.mk r start_time
          (Spark.hour tz start_time)
          (Spark.dayofmonth tz start_time)
          (Spark.weekofyear tz start_time)
          (Spark.month tz start_time)
          (Spark.year tz start_time)
          (Spark.dayofweek tz start_time)).

Definition time_table (df : list LogRow.t) : list Time.t :=
  let time_table :=
    (λ r, Time.mk (LogRow.start_time r) (LogRow.hour r) (LogRow.day r)
            (LogRow.week r) (LogRow.month r) (LogRow.year r) (LogRow.weekday r)) <$> df in
  dropDuplicates time_table.

(** [song_df.artist_name == df.artist].  The rename of the catalog's [year]
    to [song_year] only keeps the column apart from the [year] of the log
    frame; [song_year] is never selected. *)
Definition join_condition (r : LogRow.t) (s : SongData.t) : option bool :=
  sql_eq (SongData.artist_name s) (LogData.artist (LogRow.rec r)).

(** The selected and renamed columns of one joined row. *)
Definition songplay (row : Z * (LogRow.t * SongData.t)) : Songplays.t :=
  let '(songplay_id, (r, s)) := row in
  Songplays.mk songplay_id (LogRow.start_time r)
    (LogData.userId (LogRow.rec r)) (LogData.level (LogRow.rec r))
    (SongData.song_id s) (SongData.artist_id s)
    (LogData.sessionId (LogRow.rec r)) (LogData.location (LogRow.rec r))
    (LogData.userAgent (LogRow.rec r)) (LogRow.month r) (LogRow.year r).

Definition songplays_table (sizes : list nat) (df : list LogRow.t)
  (song_df : list SongData.t) : list Songplays.t :=
  let songplays_table := Spark.join join_condition df song_df in
  let songplays_table := Spark.with_id (Spark.partitions sizes songplays_table) in
  songplay <$> songplays_table.

Definition process_log_data (spark : Spark.SparkSession)
  (input_data output_data : string) : job unit :=
  let tz := Spark.time_zone spark in
  let log_data := input_data +:+ "log_data/*/*/*.json" in
  logger_info "Reading log data json files";;
  df ← read_json (Spark.read_log_json spark) log_data;
  let columns := Spark.columns df in
  select ["page"] columns;;
  let df := filter_next_song (Spark.rows df) in
  select users_columns columns;;
  logger_info "Writing users table in parquet format";;
  write_parquet [] (output_data +:+ "/tbl_users.parquet")
    (Ok (UsersFrame (users_table df)));;
  getattr "ts" columns;;
  let df := for_each (with_time_columns tz) df in
  let columns := Spark.withColumns time_columns columns in
  logger_info "Writing time table partitioned by year and month in parquet format";;
  write_parquet ["year"; "month"] (output_data +:+ "/tbl_time.parquet")
    (TimeFrame ∘ time_table <$> df);;
  logger_info "Reading song data for join";;
  song_df ← read_json (Spark.read_song_json spark) (input_data +:+ "song_data/*/*/*/*.json");
  let song_columns := Spark.withColumnRenamed "year" "song_year" (Spark.columns song_df) in
  getattr "artist_name" song_columns;;
  getattr "artist" columns;;
  select_joined songplays_columns
    (Spark.withColumn_joined "songplay_id" columns song_columns) song_columns;;
  logger_info "Writing songplays table partitioned by year and month in parquet format";;
  write_parquet ["year"; "month"] (output_data +:+ "/tbl_songplays.parquet")
    ((λ df, SongplaysFrame
              (songplays_table (Spark.join_partitions spark) df (Spark.rows song_df)))
       <$> df).

(** ** [main] *)

Definition main (spark : Spark.SparkSession) : job unit :=
  let input_data := "s3a://udacity-dend/" in
  let output_data := "s3a://your-output-bucket/" in
  process_song_data spark input_data output_data;;
  process_log_data spark input_data output_data;;
  logger_info "Job completed!".

(** ** Auxiliary definitions *)

(** The time-table row that belongs to an instant. *)
Definition time_row (tz : Z) (t : timestamp) : Time.t :=
  Time.mk t (Spark.hour tz t) (Spark.dayofmonth tz t) (Spark.weekofyear tz t)
    (Spark.month tz t) (Spark.year tz t) (Spark.dayofweek tz t).

(** The time columns of a log row, as [time_table] selects them. *)
Definition project_time (r : LogRow.t) : Time.t :=
  Time.mk (LogRow.start_time r) (LogRow.hour r) (LogRow.day r)
    (LogRow.week r) (LogRow.month r) (LogRow.year r) (LogRow.weekday r).

(** An action that never removes or replaces a written data set. *)
Definition keeps_store {A} (m : job A) : Prop :=
  ∀ w w' r, m w = (w', r) → store w ⊆ store w'.

(** The session whose log frames hold the NextSong rows only, under the
    same columns. *)
Definition only_next_song (spark : Spark.SparkSession) : Spark.SparkSession :=
  {| Spark.read_song_json := Spark.read_song_json spark;
     Spark.read_log_json := λ path,
       (λ df, {| Spark.schema := Spark.schema df;
                 Spark.rows := filter_next_song (Spark.rows df) |})
         <$> Spark.read_log_json spark path;
     Spark.time_zone := Spark.time_zone spark;
     Spark.join_partitions := Spark.join_partitions spark |}.

(** [Spark.with_id] on partitions numbered from [p0] on. *)
Definition with_id_from {A} (p0 : nat) (parts : list (list A)) : list (Z * A) :=
  concat (imap (λ p part,
                  imap (λ i row, (Spark.monotonically_increasing_id (p0 + p) i, row)) part)
            parts).

(** ** Sample records *)

Definition catalog_S1 : SongData.t :=
  SongData.mk (Some "S1") (Some "T1") (Some "A1") (Some 2000)
    (Some (Q2Qc (1234 # 10))) (Some "Dr. Dre") None None None.

(** A second song of the same artist. *)
Definition catalog_S2 : SongData.t :=
  SongData.mk (Some "S2") (Some "T2") (Some "A1") (Some 2001)
    (Some (Q2Qc (2000 # 10))) (Some "Dr. Dre") None None None.

(** The specification's example: the JSON objects as it gives them, by
    artist string; and the activity object that has the three user keys of
    the users select as well, each null. *)
Definition catalog_json : SongJson.t :=
  SongJson.mk (Json.Value "S1") (Json.Value "T1") (Json.Value "A1") (Json.Value 2000)
    (Json.Value (Q2Qc (1234 # 10))) (Json.Value "Dr. Dre")
    Json.Absent Json.Absent Json.Absent.

Definition activity_json (artist : string) : LogJson.t :=
  LogJson.mk (Json.Value "U1") Json.Absent Json.Absent Json.Absent
    (Json.Value "free") (Json.Value "NextSong") (Json.Value 1541440796796)
    (Json.Value artist) (Json.Value 1) (Json.Value "LA") (Json.Value "x").

Definition activity_json_with_names (artist : string) : LogJson.t :=
  LogJson.mk (Json.Value "U1") Json.Null Json.Null Json.Null
    (Json.Value "free") (Json.Value "NextSong") (Json.Value 1541440796796)
    (Json.Value artist) (Json.Value 1) (Json.Value "LA") (Json.Value "x").

(** The row that is read from either activity object. *)
Definition activity_U1 (artist : string) : LogData.t :=
  LogData.mk (Some "U1") None None None (Some "free") (Some "NextSong")
    (Some 1541440796796) (Some artist) (Some 1) (Some "LA") (Some "x").

(** A page view, and a song play whose [ts] is null. *)
Definition activity_home : LogData.t :=
  LogData.mk (Some "U2") None None None (Some "free") (Some "Home")
    None None (Some 2) (Some "NY") (Some "y").

Definition activity_null_ts : LogData.t :=
  LogData.mk (Some "U3") None None None (Some "paid") (Some "NextSong")
    None (Some "Dr. Dre") (Some 3) (Some "SF") (Some "z").

Definition user_U1 (level : string) : LogData.t :=
  LogData.mk (Some "U1") (Some "Ann") (Some "Lee") (Some "F") (Some level)
    (Some "NextSong") (Some 1541440796796) (Some "Dr. Dre") (Some 1)
    (Some "LA") (Some "x").

(** The row of [user_U1 "free"] with its time columns, in UTC:
    2018-11-05T17:59:56.796, a Monday of ISO week 45. *)
Definition sample_row : LogRow.t :=
  LogRow.mk (user_U1 "free") 1541440796796000 17 5 45 11 2018 2.

(** Frames with every column of the rows. *)
Definition song_frame (rows : list SongData.t)
  : Spark.DataFrame SongData.column SongData.t :=
  {| Spark.schema :=
       [SongData.c_song_id; SongData.c_title; SongData.c_artist_id; SongData.c_year;
        SongData.c_duration; SongData.c_artist_name; SongData.c_artist_location;
        SongData.c_artist_latitude; SongData.c_artist_longitude];
     Spark.rows := rows |}.

Definition log_frame (rows : list LogData.t)
  : Spark.DataFrame LogData.column LogData.t :=
  {| Spark.schema :=
       [LogData.c_userId; LogData.c_firstName; LogData.c_lastName; LogData.c_gender;
        LogData.c_level; LogData.c_page; LogData.c_ts; LogData.c_artist;
        LogData.c_sessionId; LogData.c_location; LogData.c_userAgent];
     Spark.rows := rows |}.

(** A session that reads the given catalog and log, with every column,
    under every path. *)
Definition session (tz : Z) (songs : list SongData.t) (logs : list LogData.t)
  : Spark.SparkSession :=
  {| Spark.read_song_json := λ _, Some (song_frame songs);
     Spark.read_log_json := λ _, Some (log_frame logs);
     Spark.time_zone := tz;
     Spark.join_partitions := [] |}.

(** A session that reads the given JSON objects under every path. *)
Definition json_session (tz : Z) (songs : list SongJson.t) (logs : list LogJson.t)
  : Spark.SparkSession :=
  {| Spark.read_song_json := λ _, Some (Spark.infer_json SongJson.keys SongJson.row songs);
     Spark.read_log_json := λ _, Some (Spark.infer_json LogJson.keys LogJson.row logs);
     Spark.time_zone := tz;
     Spark.join_partitions := [] |}.

(** The world before the job has run. *)
Definition empty_world : world := {| store := ∅; logged := [] |}.

(** A run that fails in the event transform: the only song play of the log
    has a null [ts]. *)
Definition failing_session : Spark.SparkSession :=
  session 0 [catalog_S1] [activity_null_ts].

Definition after_catalog : world :=
  (process_song_data failing_session "s3a://udacity-dend/" "s3a://your-output-bucket/"
     empty_world).1.

Definition after_failure : world :=
  (process_log_data failing_session "s3a://udacity-dend/" "s3a://your-output-bucket/"
     after_catalog).1.

(** ** The messages and paths of the two transforms *)

Definition song_messages : list string :=
  ["Reading song data json files";
   "Writing song table partitioned by year and artist_id in parquet format";
   "Writing artists table in parquet format"].

Definition log_messages : list string :=
  ["Reading log data json files";
   "Writing users table in parquet format";
   "Writing time table partitioned by year and month in parquet format";
   "Reading song data for join";
   "Writing songplays table partitioned by year and month in parquet format"].

(** The data sets [process_song_data] writes for a catalog [df]. *)
Definition songs_parquet (df : list SongData.t) : parquet :=
  {| partition_by := ["year"; "artist_id"]; data := SongsFrame (songs_table df) |}.

Definition artists_parquet (df : list SongData.t) : parquet :=
  {| partition_by := []; data := ArtistsFrame (artists_table df) |}.

(** The data sets [process_log_data] writes for the NextSong records [logs],
    their rows [df] with time columns and the catalog [song_df]. *)
Definition users_parquet (logs : list LogData.t) : parquet :=
  {| partition_by := []; data := UsersFrame (users_table logs) |}.

Definition time_parquet (df : list LogRow.t) : parquet :=
  {| partition_by := ["year"; "month"]; data := TimeFrame (time_table df) |}.

Definition songplays_parquet (sizes : list nat) (df : list LogRow.t)
  (song_df : list SongData.t) : parquet :=
  {| partition_by := ["year"; "month"];
     data := SongplaysFrame (songplays_table sizes df song_df) |}.

(** The columns of the two sides of the join: the log frame with its time
    columns, and the catalog frame with [year] renamed. *)
Definition joined_log_columns (df : Spark.DataFrame LogData.column LogData.t)
  : gset string :=
  Spark.withColumns time_columns (Spark.columns df).

Definition joined_song_columns (song_df : Spark.DataFrame SongData.column SongData.t)
  : gset string :=
  Spark.withColumnRenamed "year" "song_year" (Spark.columns song_df).

(** Every column of the songplays select resolves in the joined frame. *)
Definition songplays_select_ok (df : Spark.DataFrame LogData.column LogData.t)
    (song_df : Spark.DataFrame SongData.column SongData.t) : Prop :=
  Spark.joined_has_columns songplays_columns
    (Spark.withColumn_joined "songplay_id" (joined_log_columns df)
       (joined_song_columns song_df))
    (joined_song_columns song_df).

(** The local day on which [datetime.fromtimestamp(x / 1000.0)] falls, and
    the [x] for which it is no day of the years 1 to 9999. *)
Definition local_day (tz x : Z) : Z :=
  ((Python.double_to_timeval (Binary64.truediv (Binary64.of_int x) Binary64.f1000)).1 + tz)
  / 86400.

Definition out_of_range (tz x : Z) : Prop :=
  local_day tz x < Calendar.days_from_civil Python.MINYEAR 1 1
  ∨ Calendar.days_from_civil Python.MAXYEAR 12 31 < local_day tz x.

(** A world in which the artists path of ["out"] is already taken. *)
Definition artists_taken : world :=
  {| store := {[ "out/tbl_artists.parquet" := artists_parquet [] ]}; logged := [] |}.

Definition after_artists_taken : world :=
  (process_song_data (session 0 [catalog_S1] []) "in" "out" artists_taken).1.

(** The five paths [main] writes to, and all the messages of a whole run. *)
Definition output_paths : list string :=
  ["s3a://your-output-bucket//tbl_songs.parquet";
   "s3a://your-output-bucket//tbl_artists.parquet";
   "s3a://your-output-bucket//tbl_users.parquet";
   "s3a://your-output-bucket//tbl_time.parquet";
   "s3a://your-output-bucket//tbl_songplays.parquet"].

Definition main_messages : list string :=
  song_messages ++ log_messages ++ ["Job completed!"].

(** An action that changes the store at the paths [ps] at most. *)
Definition writes_within {A} (ps : list string) (m : job A) : Prop :=
  ∀ w w' r, m w = (w', r) → ∀ p, p ∉ ps → store w' !! p = store w !! p.

(** A run of [main] that succeeds, and the world it leaves. *)
Definition example_session : Spark.SparkSession :=
  session 0 [catalog_S1; catalog_S2] [activity_home; activity_U1 "Dr. Dre"].

Definition after_main : world := (main example_session empty_world).1.

(** A songplays row with its identifier blanked. *)
Definition without_id (p : Songplays.t) : Songplays.t :=
  Songplays.mk 0 (Songplays.start_time p) (Songplays.user_id p) (Songplays.level p)
    (Songplays.song_id p) (Songplays.artist_id p) (Songplays.session_id p)
    (Songplays.location p) (Songplays.user_agent p) (Songplays.month p)
    (Songplays.year p).

(** The day of the year of a day number, from 0. *)
Definition yday (z : Z) : Z :=
  z - Calendar.days_from_civil (Calendar.year_of z) 1 1.

(** The songplays row of [sample_row] and [catalog_S2] in the second place. *)
Definition sample_songplay : Songplays.t :=
  Songplays.mk 1 1541440796796000 (Some "U1") (Some "free") (Some "S2")
    (Some "A1") (Some 1) (Some "LA") (Some "x") 11 2018.

(** * Properties *)

(** ** Deduplication *)
Section dedup.
Context {A : Type} `{EqDecision A}.
Implicit Types (x : A) (l : list A).

Lemma dropDuplicates_NoDup l : NoDup (dropDuplicates l).
Proof. apply NoDup_remove_dups. Qed.

Lemma elem_of_dropDuplicates l x : x ∈ dropDuplicates l ↔ x ∈ l.
Proof. apply elem_of_remove_dups. Qed.

Lemma filter_eq_absent l x : x ∉ l → filter (x =.) l = [].
Proof.
  induction l as [|y l IH]; intros Hx; [done|].
  apply not_elem_of_cons in Hx as [Hne Hx].
  rewrite filter_cons_False by done. auto.
Qed.

(** In a list without duplicates a member occurs once. *)
Lemma NoDup_occurs_once l x :
  NoDup l → x ∈ l → length (filter (x =.) l) = 1%nat.
Proof.
  induction 1 as [|y l Hy Hl IH]; intros Hx.
  - by apply elem_of_nil in Hx.
  - destruct (decide (x = y)) as [->|Hne].
    + rewrite filter_cons_True by done. simpl.
      by rewrite filter_eq_absent.
    + rewrite filter_cons_False by done.
      apply IH. apply elem_of_cons in Hx as [?|?]; [done|assumption].
Qed.

Lemma remove_dups_NoDup_id l : NoDup l → remove_dups l = l.
Proof.
  induction 1 as [|y l Hy Hl IH]; [done|].
  simpl. destruct (decide_rel elem_of y l) as [?|_]; [done|]. by rewrite IH.
Qed.

Lemma dropDuplicates_idemp l :
  dropDuplicates (dropDuplicates l) = dropDuplicates l.
Proof. apply remove_dups_NoDup_id, NoDup_remove_dups. Qed.

End dedup.

(** ** The catalog transform *)

(** C5: whenever one or more catalog records carry the values
    (song_id, title, artist_id, year, duration), the songs table holds exactly
    one row with those values; removing duplicates a second time changes
    nothing. *)
Theorem songs_table_one_row_per_tuple (df : list SongData.t)
    (song_id title artist_id : option string) (year : option Z)
    (duration : option double) :
  (∃ r, r ∈ df ∧ SongData.song_id r = song_id ∧ SongData.title r = title ∧
        SongData.artist_id r = artist_id ∧ SongData.year r = year ∧
        SongData.duration r = duration) →
  length (filter (Songs.mk song_id title artist_id year duration =.)
            (songs_table df)) = 1%nat ∧
  dropDuplicates (songs_table df) = songs_table df.
Proof.
  intros (r & Hr & <- & <- & <- & <- & <-). split.
  - apply NoDup_occurs_once; [apply dropDuplicates_NoDup|].
    apply elem_of_dropDuplicates, list_elem_of_fmap. by exists r.
  - apply dropDuplicates_idemp.
Qed.

Lemma songs_table_one_row_per_tuple_witness :
  length (filter (Songs.mk (Some "S1") (Some "T1") (Some "A1") (Some 2000)
                    (Some (Q2Qc (1234 # 10))) =.)
            (songs_table [catalog_S1; catalog_S1; catalog_S1])) = 1%nat ∧
  dropDuplicates (songs_table [catalog_S1; catalog_S1; catalog_S1])
  = songs_table [catalog_S1; catalog_S1; catalog_S1].
Proof.
  apply songs_table_one_row_per_tuple.
  exists catalog_S1. split; [apply list_elem_of_here|]. repeat split; reflexivity.
Defined.

(** ** The users table *)

(** C3, as stated, fails: one user seen with two levels gives two rows of
    the users table with the same user_id. *)
Lemma users_table_user_id_repeated :
  ¬ NoDup (Users.user_id <$>
             users_table (filter_next_song [user_U1 "free"; user_U1 "paid"])).
Proof.
  vm_compute. intros Hnd. inversion Hnd as [|u l Hnotin _]; subst.
  apply Hnotin. left.
Qed.

(** C3, amended: the rows of the users table are pairwise distinct as whole
    rows (user_id, first_name, last_name, gender, level), and the table holds
    exactly the rows that the projection of the filtered records holds. *)
Theorem users_table_rows_distinct (df : list LogData.t) :
  NoDup (users_table (filter_next_song df)) ∧
  ∀ u, u ∈ users_table (filter_next_song df) ↔
       ∃ r, r ∈ filter_next_song df ∧
            u = Users.mk (LogData.userId r) (LogData.firstName r)
                  (LogData.lastName r) (LogData.gender r) (LogData.level r).
Proof.
  split; [apply dropDuplicates_NoDup|].
  intros u. unfold users_table. rewrite elem_of_dropDuplicates, list_elem_of_fmap.
  split; intros (r & ? & ?); exists r; done.
Qed.

(** ** Row-wise evaluation *)
Section for_each.
Context {A B : Type} (f : A → result B).

Lemma for_each_cons_Ok a l bs :
  for_each f (a :: l) = Ok bs →
  ∃ b bs', bs = b :: bs' ∧ f a = Ok b ∧ for_each f l = Ok bs'.
Proof.
  simpl. destruct (f a) as [b|e]; [|done].
  destruct (for_each f l) as [bs'|e]; [|done].
  intros [= <-]. by exists b, bs'.
Qed.

Lemma for_each_app_Ok l1 l2 bs :
  for_each f (l1 ++ l2) = Ok bs →
  ∃ bs1 bs2, bs = bs1 ++ bs2 ∧ for_each f l1 = Ok bs1 ∧ for_each f l2 = Ok bs2.
Proof.
  revert bs. induction l1 as [|a l1 IH]; intros bs Hbs.
  - by exists [], bs.
  - apply for_each_cons_Ok in Hbs as (b & bs' & -> & Hb & Hbs').
    apply IH in Hbs' as (bs1 & bs2 & -> & H1 & H2).
    exists (b :: bs1), bs2. simpl. by rewrite Hb, H1.
Qed.

Lemma for_each_Ok_Forall l bs :
  for_each f l = Ok bs → Forall (λ b, ∃ a, a ∈ l ∧ f a = Ok b) bs.
Proof.
  revert bs. induction l as [|a l IH]; intros bs Hbs.
  - injection Hbs as <-. constructor.
  - apply for_each_cons_Ok in Hbs as (b & bs' & -> & Hb & Hbs').
    constructor.
    + exists a. split; [left|done].
    + eapply Forall_impl; [by apply IH|].
      intros b' (a' & ? & ?). exists a'. split; [by right|done].
Qed.

(** Evaluation succeeds exactly when it succeeds on every row. *)
Lemma for_each_total l :
  Forall (λ a, ∃ b, f a = Ok b) l → ∃ bs, for_each f l = Ok bs.
Proof.
  induction 1 as [|a l [b Hb] _ [bs Hbs]]; [by exists []|].
  exists (b :: bs). simpl. by rewrite Hb, Hbs.
Qed.

End for_each.

Lemma for_each_singleton {A B} (f : A → result B) (a : A) (b : B) :
  f a = Ok b → for_each f [a] = Ok [b].
Proof. intros Hb. unfold for_each. by rewrite Hb. Qed.

(** ** The time columns *)

Lemma with_time_columns_Ok tz r row :
  with_time_columns tz r = Ok row →
  get_timestamp tz (LogData.ts r) = Ok (LogRow.start_time row) ∧
  LogRow.rec row = r ∧
  project_time row = time_row tz (LogRow.start_time row).
Proof.
  unfold with_time_columns. destruct (get_timestamp tz (LogData.ts r)) as [t|e]; [|done].
  intros [= <-]. done.
Qed.

Lemma with_time_columns_intro (tz : Z) (r : LogData.t) (t : timestamp) :
  get_timestamp tz (LogData.ts r) = Ok t →
  with_time_columns tz r = Ok (LogRow.mk r t (Spark.hour tz t) (Spark.dayofmonth tz t)
                                 (Spark.weekofyear tz t) (Spark.month tz t)
                                 (Spark.year tz t) (Spark.dayofweek tz t)).
Proof. intros Ht. unfold with_time_columns. by rewrite Ht. Qed.

(** C7: when the time columns evaluate, no two rows of the time table share a
    start_time, since every other column is a function of start_time. *)
Theorem time_table_start_time_unique (tz : Z) (logs : list LogData.t)
    (df : list LogRow.t) :
  for_each (with_time_columns tz) logs = Ok df →
  NoDup (Time.start_time <$> time_table df).
Proof.
  intros Hdf. unfold time_table, dropDuplicates.
  apply NoDup_fmap_2_strong; [|apply NoDup_remove_dups].
  assert (Hshape : ∀ x, x ∈ remove_dups (project_time <$> df) →
                        x = time_row tz (Time.start_time x)).
  { intros x Hx. apply elem_of_remove_dups, list_elem_of_fmap in Hx as (row & -> & Hrow).
    apply for_each_Ok_Forall in Hdf. rewrite Forall_forall in Hdf.
    destruct (Hdf row Hrow) as (r & _ & Hr).
    apply with_time_columns_Ok in Hr as (_ & _ & Hr). by rewrite Hr. }
  intros x y Hx Hy Heq. rewrite (Hshape x Hx), (Hshape y Hy). by rewrite Heq.
Qed.

Lemma time_table_start_time_unique_witness :
  NoDup (Time.start_time <$>
           time_table [sample_row;
                       LogRow.mk (user_U1 "paid") 1541440796796000 17 5 45 11 2018 2]).
Proof.
  apply (time_table_start_time_unique 0 [user_U1 "free"; user_U1 "paid"]).
  vm_compute. reflexivity.
Defined.

(** [dayofweek] of any instant: in 1..7, counting the days from a Sunday. *)
Lemma dayofweek_spec (tz : Z) (t : timestamp) :
  1 ≤ Spark.dayofweek tz t ≤ 7 ∧
  Spark.dayofweek tz t = (Spark.local_days tz t - 3) mod 7 + 1.
Proof.
  unfold Spark.dayofweek, Calendar.weekday_of.
  set (d := Spark.local_days tz t).
  replace (d + 4) with (d - 3 + 1 * 7) by lia. rewrite Z.mod_add by lia.
  pose proof (Z.mod_pos_bound (d - 3) 7). lia.
Qed.

(** Day 3 of the epoch is 1970-01-04, a Sunday, and [dayofweek] gives it 1;
    the sample instant, Monday 2018-11-05, gets 2, and the Saturday
    1970-01-03 gets 7. *)
Example dayofweek_known_days :
  Calendar.civil_from_days 3 = (1970, 1, 4) ∧
  Spark.dayofweek 0 (3 * 86400 * 1000000) = 1 ∧
  Spark.dayofweek 0 (2 * 86400 * 1000000) = 7 ∧
  Spark.dayofweek 0 1541440796796000 = 2.
Proof. repeat split; reflexivity. Qed.

(** C10: the weekday column of every row lies in 1..7 and counts the days
    from a Sunday: day 3 of the epoch, 1970-01-04, was a Sunday, so 1 falls
    on Sundays and 7 on Saturdays. *)
Theorem weekday_range_sunday_first (tz : Z) (r : LogData.t) (row : LogRow.t) :
  with_time_columns tz r = Ok row →
  1 ≤ LogRow.weekday row ≤ 7 ∧
  LogRow.weekday row
  = (Spark.local_days tz (LogRow.start_time row) - 3) mod 7 + 1.
Proof.
  intros Hrow. apply with_time_columns_Ok in Hrow as (_ & _ & Hrow).
  apply (f_equal Time.weekday) in Hrow. simpl in Hrow. rewrite Hrow.
  apply dayofweek_spec.
Qed.

Lemma weekday_range_sunday_first_witness :
  with_time_columns 0 (user_U1 "free") = Ok sample_row ∧
  1 ≤ LogRow.weekday sample_row ≤ 7 ∧
  LogRow.weekday sample_row
  = (Spark.local_days 0 (LogRow.start_time sample_row) - 3) mod 7 + 1.
Proof.
  split; [reflexivity|].
  apply (weekday_range_sunday_first 0 (user_U1 "free")). reflexivity.
Defined.

(** ** Binary64 rounding *)
Section binary64.
Import Binary64.

Lemma round_half_even_spec (n d : Z) :
  0 < d → 2 * Z.abs (round_half_even n d * d - n) ≤ d.
Proof.
  intros Hd. unfold round_half_even.
  pose proof (Z.div_mod n d) as Hdm. pose proof (Z.mod_pos_bound n d Hd) as Hr.
  destruct (2 * (n mod d) <? d) eqn:H1; [apply Z.ltb_lt in H1; nia|].
  apply Z.ltb_ge in H1.
  destruct (d <? 2 * (n mod d)) eqn:H2; [apply Z.ltb_lt in H2; nia|].
  apply Z.ltb_ge in H2.
  destruct (Z.even (n / d)); nia.
Qed.

Lemma round_half_even_unique (n d k : Z) :
  0 < d → 2 * Z.abs (n - k * d) < d → round_half_even n d = k.
Proof.
  intros Hd Hk. unfold round_half_even.
  pose proof (Z.div_mod n d) as Hdm. pose proof (Z.mod_pos_bound n d Hd) as Hr.
  assert (Hcases : n / d = k ∨ n / d = k - 1) by nia.
  destruct (2 * (n mod d) <? d) eqn:H1.
  - apply Z.ltb_lt in H1. nia.
  - apply Z.ltb_ge in H1.
    destruct (d <? 2 * (n mod d)) eqn:H2; [apply Z.ltb_lt in H2; nia|].
    apply Z.ltb_ge in H2. nia.
Qed.

Lemma round_half_even_1 (n : Z) : round_half_even n 1 = n.
Proof. apply round_half_even_unique; lia. Qed.

Lemma ilog2_lt (n d B : Z) :
  0 < n → 0 < d → 0 ≤ B → n < d * 2 ^ B → ilog2 n d < B.
Proof.
  intros Hn Hd HB Hlt. unfold ilog2.
  set (k := Z.log2 n - Z.log2 d).
  destruct (Z.log2_spec n Hn) as [Hn1 Hn2].
  destruct (Z.log2_spec d Hd) as [Hd1 Hd2].
  pose proof (Z.log2_nonneg n). pose proof (Z.log2_nonneg d).
  assert (Hk : k ≤ B).
  { destruct (decide (k ≤ B)) as [|Hgt]; [done|]. exfalso.
    assert (Z.log2 d + B + 1 ≤ Z.log2 n) by lia.
    assert (2 ^ (Z.log2 d + 1) * 2 ^ B ≤ 2 ^ Z.log2 n).
    { rewrite <- Z.pow_add_r by lia. apply Z.pow_le_mono_r; lia. }
    assert (0 < 2 ^ B) by (apply Z.pow_pos_nonneg; lia).
    nia. }
  destruct (decide (k = B)) as [HkB|]; [|destruct (if 0 <=? k then _ else _); lia].
  rewrite (proj2 (Z.leb_le 0 k)) by lia.
  rewrite HkB. rewrite (proj2 (Z.leb_gt _ _)) by lia. lia.
Qed.


Lemma rn_small (n d B : Z) :
  0 < n → 0 < d → 0 ≤ B ≤ 52 → n < d * 2 ^ B →
  ∃ s, 53 - B ≤ s ∧ rn n d = mk (round_half_even (n * 2 ^ s) d) (- s).
Proof.
  intros Hn Hd HB Hlt. unfold rn.
  rewrite (proj2 (Z.eqb_neq n 0)) by lia.
  rewrite Z.abs_eq by lia.
  pose proof (ilog2_lt n d B Hn Hd (proj1 HB) Hlt) as HL.
  set (e := Z.max (ilog2 n d - 52) emin).
  assert (He : e ≤ B - 53) by (unfold e, emin; lia).
  exists (- e). split; [lia|].
  rewrite (proj2 (Z.leb_gt 0 e)) by lia.
  by rewrite Z.opp_involutive.
Qed.

(** Seconds and microseconds of [x / 1000.0] for a millisecond count [x]
    below [2 ^ 33] seconds: the division and the scaling by [1e6] err by
    less than half a microsecond together. *)
Lemma double_to_timeval_millis (x : Z) :
  0 ≤ x < 2 ^ 33 * 1000 →
  Python.double_to_timeval (truediv (of_int x) f1000) = (x / 1000, x mod 1000 * 1000).
Proof.
  intros Hx. destruct (decide (x = 0)) as [->|Hx0]; [reflexivity|].
  (* float(x) is exact *)
  destruct (rn_small x 1 43) as (s0 & Hs0 & Hof); [lia..|].
  unfold of_int. rewrite Hof, round_half_even_1.
  assert (Hp0 : 0 < 2 ^ s0) by (apply Z.pow_pos_nonneg; lia).
  (* the quotient *)
  unfold truediv, f1000. cbn [mant expo].
  rewrite Z.sub_0_r, Z.opp_involutive, (Z.max_r (- s0) 0), (Z.max_l s0 0) by lia.
  rewrite Z.pow_0_r, Z.mul_1_r.
  rewrite (proj2 (Z.ltb_lt 0 (1000 * 2 ^ s0))) by lia.
  destruct (rn_small (x * 2 ^ s0) (1000 * 2 ^ s0) 33) as (s & Hs & Hdiv); [nia|lia|lia|nia|].
  rewrite Hdiv. clear Hdiv Hof.
  set (m := round_half_even (x * 2 ^ s0 * 2 ^ s) (1000 * 2 ^ s0)).
  assert (Hp : 2 ^ 20 ≤ 2 ^ s) by (apply Z.pow_le_mono_r; lia).
  assert (Hm : 2 * Z.abs (1000 * m - x * 2 ^ s) ≤ 1000).
  { pose proof (round_half_even_spec (x * 2 ^ s0 * 2 ^ s) (1000 * 2 ^ s0)) as H.
    fold m in H. specialize (H ltac:(lia)). nia. }
  pose proof (Z.div_mod x 1000 ltac:(lia)) as Hqr.
  pose proof (Z.mod_pos_bound x 1000 ltac:(lia)) as Hr.
  set (q := x / 1000) in *. set (r := x mod 1000) in *.
  set (f := m - q * 2 ^ s).
  assert (Hf : 2 * Z.abs (1000 * f - r * 2 ^ s) ≤ 1000) by (unfold f; nia).
  assert (Hf0 : 0 ≤ f < 2 ^ s) by nia.
  (* modf *)
  unfold Python.double_to_timeval, modf. cbn [mant expo].
  rewrite (proj2 (Z.leb_gt 0 (- s))) by lia. rewrite Z.opp_involutive.
  assert (Hquot : m ÷ 2 ^ s = q).
  { rewrite Z.quot_div_nonneg by lia. symmetry. apply (Z.div_unique _ _ q f); lia. }
  assert (Hrem : Z.rem m (2 ^ s) = f).
  { rewrite Z.rem_mod_nonneg by lia. symmetry. apply (Z.mod_unique _ _ q f); lia. }
  rewrite Hquot, Hrem.
  (* the scaling by 1e6 and the rounding *)
  unfold mul, f1e6. cbn [mant expo]. rewrite Z.add_0_r.
  rewrite (proj2 (Z.leb_gt 0 (- s))) by lia. rewrite Z.opp_involutive.
  destruct (decide (f = 0)) as [Hfz|Hfz].
  - assert (Hr0 : r = 0) by nia.
    rewrite Hfz, Hr0, Z.mul_0_l. reflexivity.
  - destruct (rn_small (f * 1000000) (2 ^ s) 20) as (s1 & Hs1 & Hmul); [lia|lia|lia|nia|].
    rewrite Hmul. unfold round. cbn [mant expo].
    rewrite (proj2 (Z.leb_gt 0 (- s1))) by lia. rewrite Z.opp_involutive.
    set (m1 := round_half_even (f * 1000000 * 2 ^ s1) (2 ^ s)).
    assert (Hp1 : 2 ^ 33 ≤ 2 ^ s1) by (apply Z.pow_le_mono_r; lia).
    assert (Hm1 : 2 * Z.abs (m1 * 2 ^ s - f * 1000000 * 2 ^ s1) ≤ 2 ^ s).
    { apply round_half_even_spec. lia. }
    rewrite (round_half_even_unique m1 (2 ^ s1) (r * 1000)); [|lia|].
    + rewrite (proj2 (Z.leb_gt _ _)) by lia.
      rewrite (proj2 (Z.ltb_ge _ _)) by lia. done.
    + assert (2 ^ s * (2 * Z.abs (m1 - r * 1000 * 2 ^ s1)) < 2 ^ s * 2 ^ s1); [|nia].
      nia.
Qed.

End binary64.

(** ** The start_time column *)

Lemma fromtimestamp_Ok (tz : Z) (t : Binary64.float) (sec us : Z) :
  Python.double_to_timeval t = (sec, us) →
  -719162 ≤ (sec + tz) / 86400 ≤ 2932896 →
  Spark.toInternal tz <$> Python.fromtimestamp tz t = Ok (sec * 1000000 + us).
Proof.
  intros Ht Hday. unfold Python.fromtimestamp. rewrite Ht.
  change (Calendar.days_from_civil Python.MINYEAR 1 1) with (-719162).
  change (Calendar.days_from_civil Python.MAXYEAR 12 31) with 2932896.
  rewrite bool_decide_eq_true_2 by done.
  unfold Spark.toInternal. simpl. f_equal. lia.
Qed.

Lemma get_timestamp_millis (tz x : Z) :
  -43200 ≤ tz ≤ 50400 → 0 ≤ x < 2 ^ 33 * 1000 →
  get_timestamp tz (Some x) = Ok (x * 1000).
Proof.
  intros Htz Hx. unfold get_timestamp.
  pose proof (Z.div_mod x 1000 ltac:(lia)) as Hqr.
  pose proof (Z.mod_pos_bound x 1000 ltac:(lia)) as Hr.
  rewrite (fromtimestamp_Ok tz _ (x / 1000) (x mod 1000 * 1000)).
  - f_equal. lia.
  - by apply double_to_timeval_millis.
  - split.
    + apply Z.div_le_lower_bound; lia.
    + apply Z.div_le_upper_bound; lia.
Qed.

Lemma get_timestamp_sample (tz : Z) :
  -43200 ≤ tz ≤ 50400 →
  get_timestamp tz (Some 1541440796796) = Ok 1541440796796000.
Proof. intros Htz. apply (get_timestamp_millis tz 1541440796796); lia. Qed.

(** In every zone from UTC-12 to UTC+14 the instant falls in November 2018. *)
Lemma sample_year_month (tz : Z) :
  -43200 ≤ tz ≤ 50400 →
  Spark.year tz 1541440796796000 = 2018 ∧ Spark.month tz 1541440796796000 = 11.
Proof.
  intros Htz. unfold Spark.year, Spark.month, Spark.local_days, Spark.local_seconds.
  change (1541440796796000 / 1000000) with 1541440796.
  assert (Hd : (1541440796 + tz) / 86400 = 17840 ∨ (1541440796 + tz) / 86400 = 17841).
  { pose proof (Z.div_mod (1541440796 + tz) 86400).
    pose proof (Z.mod_pos_bound (1541440796 + tz) 86400). lia. }
  destruct Hd as [-> | ->]; split; reflexivity.
Qed.




(** ** Partitions and identifiers *)
Section with_id.
Context {A : Type}.
Implicit Types (rows : list A) (parts : list (list A)).

Lemma concat_partitions sizes rows : concat (Spark.partitions sizes rows) = rows.
Proof.
  revert rows. induction sizes as [|n sizes IH]; intros rows; simpl.
  - apply app_nil_r.
  - rewrite IH. apply take_drop.
Qed.

Lemma length_partitions sizes rows :
  length (Spark.partitions sizes rows) = S (length sizes).
Proof.
  revert rows. induction sizes as [|n sizes IH]; intros rows; simpl; [done|].
  by rewrite IH.
Qed.

Lemma with_id_from_0 parts : Spark.with_id parts = with_id_from 0 parts.
Proof. done. Qed.

Lemma with_id_from_cons p0 part parts :
  with_id_from p0 (part :: parts)
  = imap (λ i row, (Spark.monotonically_increasing_id p0 i, row)) part
    ++ with_id_from (S p0) parts.
Proof.
  unfold with_id_from. simpl. rewrite Nat.add_0_r. f_equal. f_equal.
  apply imap_ext. intros p part' _. simpl.
  by replace (p0 + S p)%nat with (S p0 + p)%nat by lia.
Qed.

Lemma snd_imap_pair (g : nat → Z) rows :
  (imap (λ i row, (g i, row)) rows).*2 = rows.
Proof.
  revert g. induction rows as [|x rows IH]; intros g; [done|].
  simpl. f_equal. apply (IH (g ∘ S)).
Qed.

Lemma with_id_from_snd p0 parts : (with_id_from p0 parts).*2 = concat parts.
Proof.
  revert p0. induction parts as [|part parts IH]; intros p0; [done|].
  rewrite with_id_from_cons, fmap_app, IH. simpl. f_equal.
  apply snd_imap_pair.
Qed.

(** Adding the identifier column keeps the rows and their order. *)
Lemma with_id_zip sizes rows :
  Spark.with_id (Spark.partitions sizes rows)
  = zip (Spark.with_id (Spark.partitions sizes rows)).*1 rows.
Proof.
  rewrite <- (concat_partitions sizes rows) at 3.
  rewrite with_id_from_0, <- (with_id_from_snd 0).
  symmetry. apply zip_fst_snd.
Qed.

Lemma length_with_id sizes rows :
  length (Spark.with_id (Spark.partitions sizes rows)) = length rows.
Proof.
  rewrite with_id_from_0, <- (length_fmap snd (with_id_from 0 _)).
  by rewrite with_id_from_snd, concat_partitions.
Qed.

End with_id.

(** Below [2 ^ 30] partitions of at most [2 ^ 33] records each, identifiers
    do not wrap. *)
Lemma monotonically_increasing_id_small (p i : nat) :
  Z.of_nat p < 2 ^ 30 → Z.of_nat i < 2 ^ 33 →
  Spark.monotonically_increasing_id p i = Z.of_nat p * 2 ^ 33 + Z.of_nat i.
Proof.
  intros Hp Hi. unfold Spark.monotonically_increasing_id, Spark.wrap64.
  rewrite Z.shiftl_mul_pow2 by lia.
  rewrite Z.mod_small; lia.
Qed.

Section increasing.
Context {A : Type}.

Lemma imap_id_sorted (p : nat) (part : list A) :
  Z.of_nat p < 2 ^ 30 → Z.of_nat (length part) ≤ 2 ^ 33 →
  StronglySorted Z.lt
    (imap (λ i row, (Spark.monotonically_increasing_id p i, row)) part).*1 ∧
  Forall (λ id, Z.of_nat p * 2 ^ 33 ≤ id < (Z.of_nat p + 1) * 2 ^ 33)
    (imap (λ i row, (Spark.monotonically_increasing_id p i, row)) part).*1.
Proof.
  intros Hp Hlen.
  rewrite fmap_imap.
  rewrite (imap_ext _ (λ i _, Z.of_nat p * 2 ^ 33 + Z.of_nat i)).
  2:{ intros i x Hx. simpl. apply monotonically_increasing_id_small; [done|].
      apply lookup_lt_Some in Hx. lia. }
  rewrite imap_seq_0. split.
  - apply (StronglySorted_fmap _ lt); [intros x y ?; lia|].
    generalize (length part) 0%nat. clear. intros n.
    induction n as [|n IH]; intros s; simpl; constructor; [apply IH|].
    apply Forall_forall. intros x Hx. apply elem_of_seq in Hx. lia.
  - apply Forall_fmap, Forall_forall. intros i Hi. apply elem_of_seq in Hi.
    simpl. lia.
Qed.

Lemma with_id_from_sorted (p0 : nat) (parts : list (list A)) :
  Z.of_nat p0 + Z.of_nat (length parts) ≤ 2 ^ 30 →
  Forall (λ part, Z.of_nat (length part) ≤ 2 ^ 33) parts →
  StronglySorted Z.lt (with_id_from p0 parts).*1 ∧
  Forall (λ id, Z.of_nat p0 * 2 ^ 33 ≤ id) (with_id_from p0 parts).*1.
Proof.
  revert p0. induction parts as [|part parts IH]; intros p0 Hn Hparts.
  - split; constructor.
  - apply Forall_cons in Hparts as [Hpart Hparts]. simpl in Hn.
    destruct (IH (S p0)) as [IHs IHb]; [lia|done|].
    destruct (imap_id_sorted p0 part) as [Hs Hb]; [lia|done|].
    rewrite with_id_from_cons, fmap_app. split.
    + apply StronglySorted_app_2; [|done|done].
      intros x y Hx Hy. rewrite Forall_forall in Hb, IHb.
      specialize (Hb x Hx). specialize (IHb y Hy). lia.
    + apply Forall_app. split.
      * eapply Forall_impl; [done|]. intros x. simpl. lia.
      * eapply Forall_impl; [done|]. intros x. simpl. lia.
Qed.

End increasing.

Lemma StronglySorted_lt_NoDup (l : list Z) : StronglySorted Z.lt l → NoDup l.
Proof.
  induction 1 as [|x l _ IH Hx]; constructor; [|done].
  intros Hin. rewrite Forall_forall in Hx. specialize (Hx x Hin). lia.
Qed.

(** ** The songplays table *)

Lemma songplay_id_songplay (rows : list (Z * (LogRow.t * SongData.t))) :
  Songplays.songplay_id <$> (songplay <$> rows) = rows.*1.
Proof.
  rewrite <- list_fmap_compose. apply list_fmap_ext.
  intros _ [id [r s]] _. done.
Qed.

Lemma filter_replicate_True {A} (P : A → Prop) `{∀ x, Decision (P x)} (n : nat) (x : A) :
  P x → filter P (replicate n x) = replicate n x.
Proof.
  intros Hx. induction n as [|n IH]; [done|].
  simpl. rewrite filter_cons_True by done. by rewrite IH.
Qed.

(** Two partitions, the first one holding [2 ^ 33 + 1] rows: the last record
    of the first and the first record of the second get the same identifier. *)
Lemma songplay_id_collision (n : nat) (r : LogRow.t) (s : SongData.t) :
  Z.of_nat n = 2 ^ 33 + 1 →
  is_true (join_condition r s) = true →
  ¬ NoDup (Songplays.songplay_id <$> songplays_table [n] [r] (replicate (n + 1) s)).
Proof.
  intros Hn Hrs. unfold songplays_table.
  rewrite songplay_id_songplay.
  assert (Hjoin : Spark.join join_condition [r] (replicate (n + 1) s)
                  = replicate n (r, s) ++ [(r, s)]).
  { unfold Spark.join. rewrite bind_singleton.
    rewrite filter_replicate_True by done.
    by rewrite fmap_replicate, replicate_add. }
  rewrite Hjoin. simpl.
  rewrite take_app_length' by (symmetry; apply length_replicate).
  rewrite drop_app_length' by (symmetry; apply length_replicate).
  rewrite with_id_from_0, !with_id_from_cons, fmap_app.
  intros Hnd. apply NoDup_app in Hnd as (_ & Hdisj & _).
  apply (Hdisj (2 ^ 33)).
  - apply list_elem_of_fmap.
    exists (Spark.monotonically_increasing_id 0 (Z.to_nat (2 ^ 33)), (r, s)).
    split.
    + unfold Spark.monotonically_increasing_id. rewrite Z2Nat.id by lia. done.
    + apply (elem_of_lookup_imap_2 (λ i row, (Spark.monotonically_increasing_id 0 i, row))).
      apply lookup_replicate_2. lia.
  - simpl. left.
Qed.

(** C6, as stated, fails: past [2 ^ 33] records in one partition the
    identifiers of the next partition are reached. *)
Lemma songplay_id_not_distinct :
  ¬ NoDup (Songplays.songplay_id <$>
             songplays_table [Z.to_nat (2 ^ 33 + 1)] [sample_row]
               (replicate (Z.to_nat (2 ^ 33 + 1) + 1) catalog_S1)).
Proof.
  refine (songplay_id_collision _ sample_row catalog_S1 _ _).
  - apply Z2Nat.id. lia.
  - reflexivity.
Qed.

(** C6, amended: with fewer than [2 ^ 30] partitions of at most [2 ^ 33]
    records each, the songplay_id values increase strictly in the order of
    the rows, hence are pairwise distinct; they need not be contiguous (two
    partitions of one row get 0 and [2 ^ 33]). *)
Theorem songplay_id_increasing (sizes : list nat) (df : list LogRow.t)
    (song_df : list SongData.t) :
  Z.of_nat (length sizes) < 2 ^ 30 →
  Forall (λ part, Z.of_nat (length part) ≤ 2 ^ 33)
    (Spark.partitions sizes (Spark.join join_condition df song_df)) →
  StronglySorted Z.lt (Songplays.songplay_id <$> songplays_table sizes df song_df) ∧
  NoDup (Songplays.songplay_id <$> songplays_table sizes df song_df) ∧
  Songplays.songplay_id <$> songplays_table [1%nat] [sample_row; sample_row] [catalog_S1]
  = [0; 2 ^ 33].
Proof.
  intros Hsizes Hparts. unfold songplays_table at 1 2.
  rewrite songplay_id_songplay, with_id_from_0.
  destruct (with_id_from_sorted 0 (Spark.partitions sizes
              (Spark.join join_condition df song_df))) as [Hs _]; [|done|].
  { rewrite length_partitions. lia. }
  split; [done|]. split; [by apply StronglySorted_lt_NoDup|].
  reflexivity.
Qed.

Lemma songplay_id_increasing_witness :
  StronglySorted Z.lt
    (Songplays.songplay_id <$> songplays_table [1%nat] [sample_row; sample_row] [catalog_S1]) ∧
  NoDup (Songplays.songplay_id <$>
           songplays_table [1%nat] [sample_row; sample_row] [catalog_S1]) ∧
  Songplays.songplay_id <$> songplays_table [1%nat] [sample_row; sample_row] [catalog_S1]
  = [0; 2 ^ 33].
Proof.
  apply songplay_id_increasing.
  - simpl. lia.
  - apply (bool_decide_unpack _). vm_compute. exact I.
Defined.

(** ** The join *)

Lemma join_app {A B} (on : A → B → option bool) (df1 df2 : list A) (other : list B) :
  Spark.join on (df1 ++ df2) other = Spark.join on df1 other ++ Spark.join on df2 other.
Proof. apply bind_app. Qed.

Lemma join_cons {A B} (on : A → B → option bool) (r : A) (df : list A) (other : list B) :
  Spark.join on (r :: df) other
  = ((λ s, (r, s)) <$> filter (λ s, is_true (on r s) = true) other)
    ++ Spark.join on df other.
Proof. reflexivity. Qed.

(** The join condition holds exactly when both names are present and equal. *)
Lemma join_condition_true (r : LogRow.t) (s : SongData.t) :
  is_true (join_condition r s) = true ↔
  ∃ name, SongData.artist_name s = Some name ∧
          LogData.artist (LogRow.rec r) = Some name.
Proof.
  unfold join_condition, sql_eq.
  destruct (SongData.artist_name s) as [x|], (LogData.artist (LogRow.rec r)) as [y|];
    simpl; try (split; [done|intros (? & ? & ?); done]).
  case_bool_decide as Hxy; simpl.
  - split; [|done]. intros _. exists x. by subst.
  - split; [done|]. intros (name & [= ->] & [= ->]). done.
Qed.

Lemma matching_songs (r : LogRow.t) (name : string) (song_df : list SongData.t) :
  LogData.artist (LogRow.rec r) = Some name →
  filter (λ s, is_true (join_condition r s) = true) song_df
  = filter (λ s, SongData.artist_name s = Some name) song_df.
Proof.
  intros Hr. apply list_filter_iff. intros s. rewrite join_condition_true. split.
  - intros (name' & Hs & Hr'). congruence.
  - intros Hs. by exists name.
Qed.

Lemma fmap_zip_with {A B C D} (g : C → D) (f : A → B → C) (l : list A) (k : list B) :
  g <$> zip_with f l k = zip_with (λ x y, g (f x y)) l k.
Proof.
  revert k. induction l as [|x l IH]; intros [|y k]; simpl; [done..|].
  f_equal. apply IH.
Qed.

Lemma filter_next_song_middle (logs1 logs2 : list LogData.t) (a : LogData.t) :
  LogData.page a = Some "NextSong" →
  filter_next_song (logs1 ++ a :: logs2)
  = filter_next_song logs1 ++ a :: filter_next_song logs2.
Proof.
  intros Ha. unfold filter_next_song. rewrite filter_app. f_equal.
  apply filter_cons_True. by rewrite Ha.
Qed.

Lemma fmap_zip_with_r {A B C D} (g : C → D) (h : B → D) (f : A → B → C)
    (l : list A) (k : list B) :
  length l = length k → (∀ x y, g (f x y) = h y) → g <$> zip_with f l k = h <$> k.
Proof.
  intros Hlen Hg. revert k Hlen.
  induction l as [|x l IH]; intros [|y k] Hlen; simpl in *; try done.
  rewrite Hg. f_equal. apply IH. lia.
Qed.

Lemma Forall_zip_with {A B C} (P : C → Prop) (f : A → B → C) (l : list A) (k : list B) :
  (∀ x y, P (f x y)) → Forall P (zip_with f l k).
Proof.
  intros HP. revert k. induction l as [|x l IH]; intros [|y k]; simpl; auto.
Qed.

(** C9: an activity record with page NextSong whose artist equals the
    artist_name of N catalog records contributes N rows to the songplays
    table, between the rows of the records before it and those of the
    records after it: one row per matching catalog record, in their order,
    the song_id and artist_id columns holding those of the catalog records
    and the other columns what the activity record and its time columns
    give. *)
Theorem songplays_one_row_per_matching_song (tz : Z) (sizes : list nat)
    (logs1 logs2 : list LogData.t) (a : LogData.t) (df : list LogRow.t)
    (song_df : list SongData.t) (name : string) :
  LogData.page a = Some "NextSong" →
  LogData.artist a = Some name →
  for_each (with_time_columns tz) (filter_next_song (logs1 ++ a :: logs2)) = Ok df →
  ∃ df1 r df2 ids1 rows ids2,
    df = df1 ++ r :: df2 ∧ LogRow.rec r = a ∧
    length ids1 = length (Spark.join join_condition df1 song_df) ∧
    songplays_table sizes df song_df
    = (songplay <$> zip ids1 (Spark.join join_condition df1 song_df))
      ++ rows
      ++ (songplay <$> zip ids2 (Spark.join join_condition df2 song_df)) ∧
    length rows = length (filter (λ s, SongData.artist_name s = Some name) song_df) ∧
    Songplays.song_id <$> rows
    = SongData.song_id <$> filter (λ s, SongData.artist_name s = Some name) song_df ∧
    Songplays.artist_id <$> rows
    = SongData.artist_id <$> filter (λ s, SongData.artist_name s = Some name) song_df ∧
    Forall (λ p, Songplays.start_time p = LogRow.start_time r ∧
                 Songplays.user_id p = LogData.userId a ∧
                 Songplays.level p = LogData.level a ∧
                 Songplays.session_id p = LogData.sessionId a ∧
                 Songplays.location p = LogData.location a ∧
                 Songplays.user_agent p = LogData.userAgent a ∧
                 Songplays.month p = LogRow.month r ∧
                 Songplays.year p = LogRow.year r) rows.
Proof.
  intros Hpage Hartist Hdf.
  rewrite filter_next_song_middle in Hdf by done.
  apply for_each_app_Ok in Hdf as (df1 & bs & -> & _ & Hbs).
  apply for_each_cons_Ok in Hbs as (r & df2 & -> & Hr & _).
  apply with_time_columns_Ok in Hr as (_ & Hrec & _).
  set (matches := filter (λ s, SongData.artist_name s = Some name) song_df).
  set (J1 := Spark.join join_condition df1 song_df).
  set (J2 := Spark.join join_condition df2 song_df).
  assert (HJ : Spark.join join_condition (df1 ++ r :: df2) song_df
               = J1 ++ ((λ s, (r, s)) <$> matches) ++ J2).
  { rewrite join_app, join_cons. rewrite (matching_songs r name) by congruence. done. }
  unfold songplays_table. rewrite HJ.
  set (J := J1 ++ ((λ s, (r, s)) <$> matches) ++ J2).
  set (ids := (Spark.with_id (Spark.partitions sizes J)).*1).
  assert (Hlen : length ids = length J).
  { unfold ids. by rewrite length_fmap, length_with_id. }
  unfold J in Hlen. rewrite !length_app, length_fmap in Hlen.
  set (ids0 := take (length matches) (drop (length J1) ids)).
  assert (Hids0 : length ids0 = length matches).
  { unfold ids0. rewrite length_take, length_drop. lia. }
  exists df1, r, df2, (take (length J1) ids),
    (zip_with (λ id s, songplay (id, (r, s))) ids0 matches),
    (drop (length matches) (drop (length J1) ids)).
  split; [done|]. split; [done|].
  split; [rewrite length_take; fold J1; lia|].
  split.
  { rewrite with_id_zip. fold ids. unfold J.
    rewrite zip_with_app_r, zip_with_app_r.
    rewrite !fmap_app, length_fmap. f_equal. f_equal.
    rewrite zip_with_fmap_r. apply fmap_zip_with. }
  split; [rewrite length_zip_with; lia|].
  split; [by apply fmap_zip_with_r|].
  split; [by apply fmap_zip_with_r|].
  apply Forall_zip_with. intros id s. cbn. by rewrite Hrec.
Qed.

Lemma songplays_one_row_per_matching_song_witness :
  ∃ df1 r df2 ids1 rows ids2,
    [sample_row] = df1 ++ r :: df2 ∧ LogRow.rec r = user_U1 "free" ∧
    length ids1 = length (Spark.join join_condition df1 [catalog_S1; catalog_S2]) ∧
    songplays_table [] [sample_row] [catalog_S1; catalog_S2]
    = (songplay <$> zip ids1 (Spark.join join_condition df1 [catalog_S1; catalog_S2]))
      ++ rows
      ++ (songplay <$> zip ids2 (Spark.join join_condition df2 [catalog_S1; catalog_S2])) ∧
    length rows
    = length (filter (λ s, SongData.artist_name s = Some "Dr. Dre")
                [catalog_S1; catalog_S2]) ∧
    Songplays.song_id <$> rows
    = SongData.song_id <$> filter (λ s, SongData.artist_name s = Some "Dr. Dre")
                             [catalog_S1; catalog_S2] ∧
    Songplays.artist_id <$> rows
    = SongData.artist_id <$> filter (λ s, SongData.artist_name s = Some "Dr. Dre")
                               [catalog_S1; catalog_S2] ∧
    Forall (λ p, Songplays.start_time p = LogRow.start_time r ∧
                 Songplays.user_id p = LogData.userId (user_U1 "free") ∧
                 Songplays.level p = LogData.level (user_U1 "free") ∧
                 Songplays.session_id p = LogData.sessionId (user_U1 "free") ∧
                 Songplays.location p = LogData.location (user_U1 "free") ∧
                 Songplays.user_agent p = LogData.userAgent (user_U1 "free") ∧
                 Songplays.month p = LogRow.month r ∧
                 Songplays.year p = LogRow.year r) rows.
Proof.
  apply (songplays_one_row_per_matching_song 0 [] [] [] (user_U1 "free")
           [sample_row] [catalog_S1; catalog_S2] "Dr. Dre");
    vm_compute; reflexivity.
Defined.

(** ** Actions on the output store *)

Lemma append_inj_r (p a b : string) : p +:+ a = p +:+ b → a = b.
Proof. induction p as [|c p IH]; simpl; [done|]. intros [= H]. auto. Qed.

Lemma append_ne (p a b : string) : a ≠ b → p +:+ a ≠ p +:+ b.
Proof. intros Hne H. by apply Hne, (append_inj_r p). Qed.

Lemma keeps_store_bind {A B} (m : job A) (f : A → job B) :
  keeps_store m → (∀ a, keeps_store (f a)) → keeps_store (m ≫= f).
Proof.
  intros Hm Hf w w' r. unfold mbind, job_mbind, job_bind.
  destruct (m w) as [w1 [a|e]] eqn:Hmw.
  - intros Hfw. etrans; [by eapply Hm|by eapply Hf].
  - intros [= <- <-]. by eapply Hm.
Qed.

Lemma keeps_store_logger_info msg : keeps_store (logger_info msg).
Proof. intros w w' r [= <- <-]. done. Qed.

Lemma keeps_store_read_json {C A} (reader : string → option (Spark.DataFrame C A)) path :
  keeps_store (read_json reader path).
Proof.
  intros w w' r. unfold read_json. by destruct (reader path); intros [= <- <-].
Qed.

Lemma keeps_store_select names cols : keeps_store (select names cols).
Proof. intros w w' r. unfold select. by case_decide; intros [= <- <-]. Qed.

Lemma keeps_store_select_joined names left right :
  keeps_store (select_joined names left right).
Proof. intros w w' r. unfold select_joined. by case_decide; intros [= <- <-]. Qed.

Lemma keeps_store_getattr name cols : keeps_store (getattr name cols).
Proof. intros w w' r. unfold getattr. by case_decide; intros [= <- <-]. Qed.

Lemma keeps_store_write_parquet cols path df :
  keeps_store (write_parquet cols path df).
Proof.
  intros w w' r. unfold write_parquet.
  destruct (store w !! path) eqn:Hpath; [intros [= <- <-]; done|].
  destruct df; intros [= <- <-]; [|done].
  simpl. by apply insert_subseteq.
Qed.

Lemma keeps_store_process_log_data spark i o :
  keeps_store (process_log_data spark i o).
Proof.
  unfold process_log_data. cbv zeta.
  repeat first
    [ apply keeps_store_bind; [|intros ?]
    | apply keeps_store_logger_info
    | apply keeps_store_read_json
    | apply keeps_store_select
    | apply keeps_store_select_joined
    | apply keeps_store_getattr
    | apply keeps_store_write_parquet ].
Qed.

Lemma keeps_store_process_song_data spark i o :
  keeps_store (process_song_data spark i o).
Proof.
  unfold process_song_data. cbv zeta.
  repeat first
    [ apply keeps_store_bind; [|intros ?]
    | apply keeps_store_logger_info
    | apply keeps_store_read_json
    | apply keeps_store_select
    | apply keeps_store_write_parquet ].
Qed.

(** ** The runs of the two transforms *)

(** The six ways [process_song_data] can go. *)
Lemma process_song_data_cases spark i o w :
  process_song_data spark i o w
  = match Spark.read_song_json spark (i +:+ "/song_data/*/*/*/*.json") with
    | None =>
        ({| store := store w; logged := logged w ++ take 1 song_messages |},
         Raise AnalysisException)
    | Some df =>
        let songs := <[o +:+ "/tbl_songs.parquet" := songs_parquet (Spark.rows df)]>
                       (store w) in
        if decide (Spark.has_columns songs_columns (Spark.columns df)) then
          match store w !! (o +:+ "/tbl_songs.parquet") with
          | Some _ =>
              ({| store := store w; logged := logged w ++ take 2 song_messages |},
               Raise AnalysisException)
          | None =>
              if decide (Spark.has_columns artists_columns (Spark.columns df)) then
                match store w !! (o +:+ "/tbl_artists.parquet") with
                | Some _ =>
                    ({| store := songs; logged := logged w ++ song_messages |},
                     Raise AnalysisException)
                | None =>
                    ({| store := <[o +:+ "/tbl_artists.parquet" :=
                                     artists_parquet (Spark.rows df)]> songs;
                        logged := logged w ++ song_messages |},
                     Ok ())
                end
              else
                ({| store := songs; logged := logged w ++ take 2 song_messages |},
                 Raise AnalysisException)
          end
        else
          ({| store := store w; logged := logged w ++ take 1 song_messages |},
           Raise AnalysisException)
    end.
Proof.
  unfold process_song_data, mbind, job_mbind, job_bind, read_json, write_parquet,
    select, logger_info, song_messages.
  destruct (Spark.read_song_json spark _) as [df|]; simpl; [|done].
  destruct (decide (Spark.has_columns songs_columns _)) as [Hs|Hs]; simpl; [|done].
  destruct (store w !! (o +:+ "/tbl_songs.parquet")) eqn:Hsongs; simpl.
  { by rewrite <- app_assoc. }
  destruct (decide (Spark.has_columns artists_columns _)) as [Ha|Ha]; simpl.
  2:{ by rewrite <- app_assoc. }
  rewrite lookup_insert_ne by (apply append_ne; done).
  destruct (store w !! (o +:+ "/tbl_artists.parquet")) eqn:Hartists; simpl;
    by rewrite <- !app_assoc.
Qed.

(** What a successful [process_song_data] has read and written. *)
Lemma process_song_data_Ok spark i o w w1 :
  process_song_data spark i o w = (w1, Ok ()) →
  ∃ df, Spark.read_song_json spark (i +:+ "/song_data/*/*/*/*.json") = Some df ∧
        store w1 !! (o +:+ "/tbl_songs.parquet")
        = Some {| partition_by := ["year"; "artist_id"];
                  data := SongsFrame (songs_table (Spark.rows df)) |} ∧
        store w1 !! (o +:+ "/tbl_artists.parquet")
        = Some {| partition_by := [];
                  data := ArtistsFrame (artists_table (Spark.rows df)) |}.
Proof.
  rewrite process_song_data_cases.
  destruct (Spark.read_song_json spark _) as [df|]; [|done]. cbv zeta.
  case_decide; [|done].
  destruct (store w !! (o +:+ "/tbl_songs.parquet")) eqn:Hsongs; [done|].
  case_decide; [|done].
  destruct (store w !! (o +:+ "/tbl_artists.parquet")) eqn:Hartists; [done|].
  intros [= <-]. exists df. split; [done|]. simpl.
  rewrite lookup_insert_ne by (apply append_ne; done).
  by rewrite !lookup_insert_eq.
Qed.

Lemma has_columns_cons name names cols :
  Spark.has_columns (name :: names) cols
  ↔ Spark.has_columns [name] cols ∧ Spark.has_columns names cols.
Proof.
  unfold Spark.has_columns. rewrite Forall_cons, Forall_singleton. done.
Qed.

(** The eleven ways [process_log_data] can go. *)
Lemma process_log_data_cases spark i o w :
  process_log_data spark i o w
  = match Spark.read_log_json spark (i +:+ "log_data/*/*/*.json") with
    | None =>
        ({| store := store w; logged := logged w ++ take 1 log_messages |},
         Raise AnalysisException)
    | Some df =>
        let logs := filter_next_song (Spark.rows df) in
        let users := <[o +:+ "/tbl_users.parquet" := users_parquet logs]> (store w) in
        if decide (Spark.has_columns ("page" :: users_columns) (Spark.columns df)) then
          match store w !! (o +:+ "/tbl_users.parquet") with
          | Some _ =>
              ({| store := store w; logged := logged w ++ take 2 log_messages |},
               Raise AnalysisException)
          | None =>
              if decide ("ts" ∈ Spark.columns df) then
                match store w !! (o +:+ "/tbl_time.parquet") with
                | Some _ =>
                    ({| store := users; logged := logged w ++ take 3 log_messages |},
                     Raise AnalysisException)
                | None =>
                    match for_each (with_time_columns (Spark.time_zone spark)) logs with
                    | Raise e =>
                        ({| store := users; logged := logged w ++ take 3 log_messages |},
                         Raise e)
                    | Ok rows =>
                        let time := <[o +:+ "/tbl_time.parquet" := time_parquet rows]> users in
                        match Spark.read_song_json spark (i +:+ "song_data/*/*/*/*.json") with
                        | None =>
                            ({| store := time; logged := logged w ++ take 4 log_messages |},
                             Raise AnalysisException)
                        | Some song_df =>
                            if decide ("artist_name" ∈ joined_song_columns song_df
                                       ∧ "artist" ∈ joined_log_columns df) then
                              if decide (songplays_select_ok df song_df) then
                                match store w !! (o +:+ "/tbl_songplays.parquet") with
                                | Some _ =>
                                    ({| store := time; logged := logged w ++ log_messages |},
                                     Raise AnalysisException)
                                | None =>
                                    ({| store :=
                                          <[o +:+ "/tbl_songplays.parquet" :=
                                              songplays_parquet (Spark.join_partitions spark)
                                                rows (Spark.rows song_df)]> time;
                                        logged := logged w ++ log_messages |},
                                     Ok ())
                                end
                              else
                                ({| store := time;
                                    logged := logged w ++ take 4 log_messages |},
                                 Raise AnalysisException)
                            else
                              ({| store := time; logged := logged w ++ take 4 log_messages |},
                               Raise AttributeError)
                        end
                    end
                end
              else
                ({| store := users; logged := logged w ++ take 2 log_messages |},
                 Raise AttributeError)
          end
        else
          ({| store := store w; logged := logged w ++ take 1 log_messages |},
           Raise AnalysisException)
    end.
Proof.
  unfold process_log_data, mbind, job_mbind, job_bind, read_json, write_parquet,
    select, select_joined, getattr, logger_info, log_messages.
  destruct (Spark.read_log_json spark _) as [df|]; simpl; [|done].
  rewrite (decide_ext _ _ _ _ (has_columns_cons "page" users_columns (Spark.columns df))).
  destruct (decide (Spark.has_columns ["page"] _)) as [Hpage|Hpage]; simpl.
  2:{ rewrite decide_False by tauto. done. }
  destruct (decide (Spark.has_columns users_columns _)) as [Hcols|Hcols]; simpl.
  2:{ rewrite decide_False by tauto. done. }
  rewrite decide_True by tauto.
  destruct (store w !! (o +:+ "/tbl_users.parquet")) eqn:Husers; simpl.
  { by rewrite <- app_assoc. }
  destruct (decide ("ts" ∈ Spark.columns df)) as [Hts|Hts]; simpl.
  2:{ by rewrite <- app_assoc. }
  rewrite lookup_insert_ne by (apply append_ne; done).
  destruct (store w !! (o +:+ "/tbl_time.parquet")) eqn:Htime; simpl.
  { by rewrite <- !app_assoc. }
  destruct (for_each _ (filter_next_song (Spark.rows df))) as [rows|e]; simpl.
  2:{ by rewrite <- !app_assoc. }
  destruct (Spark.read_song_json spark _) as [song_df|]; simpl.
  2:{ by rewrite <- !app_assoc. }
  fold (joined_song_columns song_df). fold (joined_log_columns df).
  destruct (decide ("artist_name" ∈ joined_song_columns song_df)) as [Hname|Hname]; simpl.
  2:{ rewrite decide_False by tauto. by rewrite <- !app_assoc. }
  destruct (decide ("artist" ∈ joined_log_columns df)) as [Hartist|Hartist]; simpl.
  2:{ rewrite decide_False by tauto. by rewrite <- !app_assoc. }
  rewrite (decide_True (P := _ ∧ _)) by tauto.
  fold (songplays_select_ok df song_df).
  destruct (decide (songplays_select_ok df song_df)) as [Hsel|Hsel]; simpl.
  2:{ by rewrite <- !app_assoc. }
  rewrite !lookup_insert_ne by (apply append_ne; done).
  destruct (store w !! (o +:+ "/tbl_songplays.parquet")) eqn:Hplays; simpl;
    by rewrite <- !app_assoc.
Qed.

(** The run of [process_log_data] when both reads succeed, the frames have
    the columns that are named, the time columns evaluate and the three
    output paths are free. *)
Lemma process_log_data_Ok spark i o w logs songs df :
  Spark.read_log_json spark (i +:+ "log_data/*/*/*.json") = Some logs →
  Spark.read_song_json spark (i +:+ "song_data/*/*/*/*.json") = Some songs →
  Spark.has_columns ("page" :: users_columns) (Spark.columns logs) →
  "ts" ∈ Spark.columns logs →
  "artist_name" ∈ joined_song_columns songs →
  "artist" ∈ joined_log_columns logs →
  songplays_select_ok logs songs →
  for_each (with_time_columns (Spark.time_zone spark)) (filter_next_song (Spark.rows logs))
  = Ok df →
  store w !! (o +:+ "/tbl_users.parquet") = None →
  store w !! (o +:+ "/tbl_time.parquet") = None →
  store w !! (o +:+ "/tbl_songplays.parquet") = None →
  process_log_data spark i o w
  = ({| store :=
          <[o +:+ "/tbl_songplays.parquet" :=
              songplays_parquet (Spark.join_partitions spark) df (Spark.rows songs)]>
            (<[o +:+ "/tbl_time.parquet" := time_parquet df]>
               (<[o +:+ "/tbl_users.parquet" :=
                    users_parquet (filter_next_song (Spark.rows logs))]>
                  (store w)));
        logged := logged w ++ log_messages |}, Ok ()).
Proof.
  intros Hlogs Hsongs Hcols Hts Hname Hartist Hsel Hdf Husers Htime Hplays.
  rewrite process_log_data_cases, Hlogs, Hsongs. cbv zeta.
  rewrite Husers, Htime, Hplays, Hdf.
  by rewrite !decide_True by tauto.
Qed.

(** ** The example of the specification *)

Lemma with_id_nil {A} (sizes : list nat) :
  Spark.with_id (Spark.partitions sizes (@nil A)) = [].
Proof. apply nil_length_inv. by rewrite length_with_id. Qed.

Lemma with_id_singleton {A} (sizes : list nat) (x : A) :
  ∃ id, Spark.with_id (Spark.partitions sizes [x]) = [(id, x)].
Proof.
  rewrite with_id_zip.
  pose proof (length_with_id sizes [x]) as Hlen.
  rewrite <- (length_fmap fst) in Hlen.
  destruct ((Spark.with_id (Spark.partitions sizes [x])).*1) as [|id [|??]];
    try done.
  by exists id.
Qed.

Lemma join_single (r : LogRow.t) (s : SongData.t) :
  Spark.join join_condition [r] [s]
  = if is_true (join_condition r s) then [(r, s)] else [].
Proof.
  unfold Spark.join. rewrite bind_singleton.
  destruct (is_true (join_condition r s)) eqn:Hrs.
  - by rewrite filter_cons_True by done.
  - rewrite filter_cons_False; [done|]. by rewrite Hrs.
Qed.

Lemma join_condition_example (r : LogRow.t) (artist : string) :
  LogRow.rec r = activity_U1 artist →
  is_true (join_condition r catalog_S1) = bool_decide (artist = "Dr. Dre").
Proof.
  intros Hr. unfold join_condition. rewrite Hr.
  unfold activity_U1, catalog_S1, sql_eq, is_true. cbn [LogData.artist SongData.artist_name].
  do 2 case_bool_decide; congruence.
Qed.

(** The frames that are read from the objects of the example. *)
Lemma example_frames (artist : string) :
  let logs := Spark.infer_json LogJson.keys LogJson.row [activity_json_with_names artist] in
  let songs := Spark.infer_json SongJson.keys SongJson.row [catalog_json] in
  Spark.rows logs = [activity_U1 artist] ∧ Spark.rows songs = [catalog_S1] ∧
  Spark.has_columns ("page" :: users_columns) (Spark.columns logs) ∧
  "ts" ∈ Spark.columns logs ∧
  "artist_name" ∈ joined_song_columns songs ∧
  "artist" ∈ joined_log_columns logs ∧
  songplays_select_ok logs songs.
Proof.
  split; [done|]. split; [done|].
  repeat split; apply (bool_decide_unpack _); vm_compute; exact I.
Qed.

(** C1, as stated, fails: the activity object of the example has no
    firstName, lastName or gender key, so the frame read from it has no such
    columns; the event transform raises an [AnalysisException] when it
    selects the columns of the users table, before it has written anything,
    and there is no songplays table. *)
Lemma songplays_example_raises :
  (LogData.c_firstName ∉ LogJson.keys (activity_json "Dr. Dre")) ∧
  process_log_data (json_session 0 [catalog_json] [activity_json "Dr. Dre"])
    "data/" "output" empty_world
  = ({| store := ∅; logged := ["Reading log data json files"] |},
     Raise AnalysisException).
Proof.
  split.
  - apply (bool_decide_unpack _). vm_compute. exact I.
  - vm_compute. reflexivity.
Qed.

(** C1, amended: with the one catalog object of the example and one activity
    object of the example's user that has the firstName, lastName and
    gender keys as well (each null), the event transform writes a songplays
    table of exactly one row, joining song S1 with user U1, when the
    object's artist is exactly "Dr. Dre", and of no row for any other artist
    string, such as "dr. dre". *)
Theorem songplays_exact_artist_match (spark : Spark.SparkSession) (i o : string)
    (w : world) (artist : string) :
  -43200 ≤ Spark.time_zone spark ≤ 50400 →
  Spark.read_song_json spark (i +:+ "song_data/*/*/*/*.json")
  = Some (Spark.infer_json SongJson.keys SongJson.row [catalog_json]) →
  Spark.read_log_json spark (i +:+ "log_data/*/*/*.json")
  = Some (Spark.infer_json LogJson.keys LogJson.row [activity_json_with_names artist]) →
  store w !! (o +:+ "/tbl_users.parquet") = None →
  store w !! (o +:+ "/tbl_time.parquet") = None →
  store w !! (o +:+ "/tbl_songplays.parquet") = None →
  ∃ w' id,
    process_log_data spark i o w = (w', Ok ()) ∧
    store w' !! (o +:+ "/tbl_songplays.parquet")
    = Some {| partition_by := ["year"; "month"];
              data := SongplaysFrame
                        (if bool_decide (artist = "Dr. Dre")
                         then [Songplays.mk id 1541440796796000 (Some "U1")
                                 (Some "free") (Some "S1") (Some "A1") (Some 1)
                                 (Some "LA") (Some "x") 11 2018]
                         else []) |} ∧
    bool_decide ("dr. dre" = "Dr. Dre") = false.
Proof.
  intros Htz Hsongs Hlogs Husers Htime Hplays.
  destruct (sample_year_month _ Htz) as [Hyear Hmonth].
  pose proof (with_time_columns_intro _ (activity_U1 artist) _
                (get_timestamp_sample _ Htz)) as Hrow.
  revert Hrow Hyear Hmonth.
  generalize (Spark.hour (Spark.time_zone spark) 1541440796796000)
    (Spark.dayofmonth (Spark.time_zone spark) 1541440796796000)
    (Spark.weekofyear (Spark.time_zone spark) 1541440796796000)
    (Spark.dayofweek (Spark.time_zone spark) 1541440796796000)
    (Spark.month (Spark.time_zone spark) 1541440796796000)
    (Spark.year (Spark.time_zone spark) 1541440796796000).
  intros hr dy wk wd mo yr Hrow -> ->.
  assert (Hnext : filter_next_song [activity_U1 artist] = [activity_U1 artist]).
  { unfold filter_next_song. by rewrite filter_cons_True by reflexivity. }
  apply for_each_singleton in Hrow. rewrite <- Hnext in Hrow.
  destruct (example_frames artist)
    as (Hrows & Hcatalog & Hcols & Hts & Hname & Hartist & Hsel).
  rewrite <- Hrows in Hrow.
  pose proof (process_log_data_Ok spark i o w _ _ _ Hlogs Hsongs Hcols Hts Hname
                Hartist Hsel Hrow Husers Htime Hplays) as Hrun.
  rewrite Hcatalog in Hrun.
  set (row := LogRow.mk (activity_U1 artist) 1541440796796000 hr dy wk 11 2018 wd) in *.
  assert (Htable : ∃ id, songplays_table (Spark.join_partitions spark) [row] [catalog_S1]
            = if bool_decide (artist = "Dr. Dre")
              then [Songplays.mk id 1541440796796000 (Some "U1") (Some "free")
                      (Some "S1") (Some "A1") (Some 1) (Some "LA") (Some "x") 11 2018]
              else []).
  { unfold songplays_table. rewrite join_single.
    rewrite (join_condition_example row artist) by done.
    destruct (bool_decide (artist = "Dr. Dre")).
    - destruct (with_id_singleton (Spark.join_partitions spark) (row, catalog_S1))
        as [id ->].
      by exists id.
    - exists 0. by rewrite with_id_nil. }
  destruct Htable as [id Htable].
  eexists _, id. split; [exact Hrun|]. split; [|done].
  cbn [store]. rewrite lookup_insert_eq. unfold songplays_parquet. by rewrite Htable.
Qed.

Lemma songplays_exact_artist_match_witness :
  ∃ w' id,
    process_log_data (json_session 0 [catalog_json] [activity_json_with_names "Dr. Dre"])
      "data/" "output" empty_world = (w', Ok ()) ∧
    store w' !! ("output" +:+ "/tbl_songplays.parquet")
    = Some {| partition_by := ["year"; "month"];
              data := SongplaysFrame
                        (if bool_decide ("Dr. Dre" = "Dr. Dre")
                         then [Songplays.mk id 1541440796796000 (Some "U1")
                                 (Some "free") (Some "S1") (Some "A1") (Some 1)
                                 (Some "LA") (Some "x") 11 2018]
                         else []) |} ∧
    bool_decide ("dr. dre" = "Dr. Dre") = false.
Proof.
  apply songplays_exact_artist_match.
  - unfold json_session, Spark.time_zone. lia.
  - reflexivity.
  - reflexivity.
  - apply lookup_empty.
  - apply lookup_empty.
  - apply lookup_empty.
Defined.

(** ** Only NextSong records reach the tables *)

Lemma is_true_sql_eq {A} `{EqDecision A} (a : option A) (x : A) :
  is_true (sql_eq a (Some x)) = true ↔ a = Some x.
Proof.
  destruct a as [y|]; simpl; [|done].
  case_bool_decide; simpl; split; congruence.
Qed.

Lemma elem_of_filter_next_song (logs : list LogData.t) (r : LogData.t) :
  r ∈ filter_next_song logs ↔ LogData.page r = Some "NextSong" ∧ r ∈ logs.
Proof.
  unfold filter_next_song. rewrite list_elem_of_filter. by rewrite is_true_sql_eq.
Qed.

Lemma filter_next_song_idemp (logs : list LogData.t) :
  filter_next_song (filter_next_song logs) = filter_next_song logs.
Proof.
  unfold filter_next_song. induction logs as [|r logs IH]; [done|].
  destruct (decide (is_true (sql_eq (LogData.page r) (Some "NextSong")) = true)).
  - rewrite (filter_cons_True _ r logs) by done.
    rewrite filter_cons_True by done. by rewrite IH.
  - by rewrite (filter_cons_False _ r logs) by done.
Qed.

(** Every row with time columns stems from a NextSong record of the log. *)
Lemma log_rows_next_song (tz : Z) (logs : list LogData.t) (df : list LogRow.t)
    (row : LogRow.t) :
  for_each (with_time_columns tz) (filter_next_song logs) = Ok df →
  row ∈ df →
  LogRow.rec row ∈ logs ∧ LogData.page (LogRow.rec row) = Some "NextSong".
Proof.
  intros Hdf Hrow. apply for_each_Ok_Forall in Hdf.
  rewrite Forall_forall in Hdf. destruct (Hdf row Hrow) as (a & Ha & Hrun).
  apply with_time_columns_Ok in Hrun as (_ & -> & _).
  apply elem_of_filter_next_song in Ha as [? ?]. done.
Qed.

Lemma elem_of_with_id {A} (sizes : list nat) (rows : list A) (id : Z) (x : A) :
  (id, x) ∈ Spark.with_id (Spark.partitions sizes rows) → x ∈ rows.
Proof.
  intros Hin. rewrite <- (concat_partitions sizes rows).
  rewrite <- (with_id_from_snd 0), <- with_id_from_0.
  apply list_elem_of_fmap. by exists (id, x).
Qed.

Lemma elem_of_join {A B} (on : A → B → option bool) (df : list A) (other : list B)
    (r : A) (s : B) :
  (r, s) ∈ Spark.join on df other ↔ r ∈ df ∧ s ∈ other ∧ is_true (on r s) = true.
Proof.
  unfold Spark.join. rewrite list_elem_of_bind. split.
  - intros (r' & Hin & Hr'). apply list_elem_of_fmap in Hin as (s' & [= -> ->] & Hs').
    apply list_elem_of_filter in Hs' as [? ?]. done.
  - intros (Hr & Hs & Hon). exists r. split; [|done].
    apply list_elem_of_fmap. exists s. split; [done|].
    by apply list_elem_of_filter.
Qed.

(** C4: the event transform does the same with the NextSong records alone as
    with the whole log, and every row of the users, time and songplays tables
    is derived from a record of the log whose page is NextSong. *)
Theorem non_next_song_excluded (spark : Spark.SparkSession) (i o : string)
    (w : world) (sizes : list nat) (logs : list LogData.t) (df : list LogRow.t)
    (song_df : list SongData.t) :
  for_each (with_time_columns (Spark.time_zone spark)) (filter_next_song logs) = Ok df →
  process_log_data (only_next_song spark) i o w = process_log_data spark i o w ∧
  (∀ u, u ∈ users_table (filter_next_song logs) →
        ∃ r, r ∈ logs ∧ LogData.page r = Some "NextSong" ∧
             u = Users.mk (LogData.userId r) (LogData.firstName r)
                   (LogData.lastName r) (LogData.gender r) (LogData.level r)) ∧
  (∀ t, t ∈ time_table df →
        ∃ row, LogRow.rec row ∈ logs ∧
               LogData.page (LogRow.rec row) = Some "NextSong" ∧
               t = project_time row) ∧
  (∀ p, p ∈ songplays_table sizes df song_df →
        ∃ id row s, LogRow.rec row ∈ logs ∧
                    LogData.page (LogRow.rec row) = Some "NextSong" ∧
                    s ∈ song_df ∧ p = songplay (id, (row, s))).
Proof.
  intros Hdf. split; [|split; [|split]].
  - unfold process_log_data, mbind, job_mbind, job_bind, read_json, logger_info.
    cbn [only_next_song Spark.read_log_json Spark.read_song_json Spark.time_zone
           Spark.join_partitions].
    destruct (Spark.read_log_json spark (i +:+ "log_data/*/*/*.json")) as [l|];
      [|done].
    unfold Spark.columns. cbn [fmap option_fmap option_map Spark.schema Spark.rows].
    by rewrite filter_next_song_idemp.
  - intros u Hu. apply elem_of_dropDuplicates, list_elem_of_fmap in Hu as (r & -> & Hr).
    apply elem_of_filter_next_song in Hr as [? ?]. by exists r.
  - intros t Ht. apply elem_of_dropDuplicates, list_elem_of_fmap in Ht as (row & -> & Hrow).
    destruct (log_rows_next_song _ _ _ _ Hdf Hrow). by exists row.
  - intros p Hp. apply list_elem_of_fmap in Hp as ([id [row s]] & -> & Hin).
    apply elem_of_with_id, elem_of_join in Hin as (Hrow & Hs & _).
    destruct (log_rows_next_song _ _ _ _ Hdf Hrow). by exists id, row, s.
Qed.

Lemma non_next_song_excluded_witness :
  process_log_data (only_next_song (session 0 [catalog_S1] [activity_home; user_U1 "free"]))
    "data/" "output" empty_world
  = process_log_data (session 0 [catalog_S1] [activity_home; user_U1 "free"])
      "data/" "output" empty_world ∧
  (∀ u, u ∈ users_table (filter_next_song [activity_home; user_U1 "free"]) →
        ∃ r, r ∈ [activity_home; user_U1 "free"] ∧ LogData.page r = Some "NextSong" ∧
             u = Users.mk (LogData.userId r) (LogData.firstName r)
                   (LogData.lastName r) (LogData.gender r) (LogData.level r)) ∧
  (∀ t, t ∈ time_table [sample_row] →
        ∃ row, LogRow.rec row ∈ [activity_home; user_U1 "free"] ∧
               LogData.page (LogRow.rec row) = Some "NextSong" ∧
               t = project_time row) ∧
  (∀ p, p ∈ songplays_table [] [sample_row] [catalog_S1] →
        ∃ id row s, LogRow.rec row ∈ [activity_home; user_U1 "free"] ∧
                    LogData.page (LogRow.rec row) = Some "NextSong" ∧
                    s ∈ [catalog_S1] ∧ p = songplay (id, (row, s))).
Proof.
  apply (non_next_song_excluded
           (session 0 [catalog_S1] [activity_home; user_U1 "free"])).
  vm_compute. reflexivity.
Defined.

(** ** A failure after the catalog transform *)

Lemma main_run (spark : Spark.SparkSession) (w : world) :
  main spark w
  = match process_song_data spark "s3a://udacity-dend/" "s3a://your-output-bucket/" w with
    | (w1, Ok _) =>
        match process_log_data spark "s3a://udacity-dend/" "s3a://your-output-bucket/" w1 with
        | (w2, Ok _) => logger_info "Job completed!" w2
        | (w2, Raise e) => (w2, Raise e)
        end
    | (w1, Raise e) => (w1, Raise e)
    end.
Proof.
  unfold main, mbind, job_mbind, job_bind.
  destruct (process_song_data _ _ _ w) as [w1 [[]|e]]; [|done].
  by destruct (process_log_data _ _ _ w1) as [w2 [[]|e]].
Qed.

(** C8: [main] runs the catalog transform, then the event transform on the
    world the first one left, and nothing is undone: when the event
    transform raises, [main] ends in the world of that moment, in which the
    songs and artists data sets written by the catalog transform are still
    in place; and a catalog transform that raises ends the run before the
    event transform starts. *)
Theorem main_failure_keeps_catalog_output (spark : Spark.SparkSession)
    (w w1 w2 : world) (e : exn) :
  process_song_data spark "s3a://udacity-dend/" "s3a://your-output-bucket/" w
  = (w1, Ok ()) →
  process_log_data spark "s3a://udacity-dend/" "s3a://your-output-bucket/" w1
  = (w2, Raise e) →
  main spark w = (w2, Raise e) ∧
  (∃ df,
     Spark.read_song_json spark "s3a://udacity-dend//song_data/*/*/*/*.json" = Some df ∧
     store w2 !! "s3a://your-output-bucket//tbl_songs.parquet"
     = Some {| partition_by := ["year"; "artist_id"];
               data := SongsFrame (songs_table (Spark.rows df)) |} ∧
     store w2 !! "s3a://your-output-bucket//tbl_artists.parquet"
     = Some {| partition_by := [];
               data := ArtistsFrame (artists_table (Spark.rows df)) |}) ∧
  (∀ w' e',
     process_song_data spark "s3a://udacity-dend/" "s3a://your-output-bucket/" w
     = (w', Raise e') →
     main spark w = (w', Raise e')).
Proof.
  intros Hsong Hlog. split; [|split].
  - by rewrite main_run, Hsong, Hlog.
  - apply process_song_data_Ok in Hsong as (df & Hread & Hsongs & Hartists).
    apply keeps_store_process_log_data in Hlog.
    exists df. split; [done|].
    split; eapply lookup_weaken; done.
  - intros w' e' Hfail. by rewrite main_run, Hfail.
Qed.

Lemma main_failure_keeps_catalog_output_witness :
  main failing_session empty_world = (after_failure, Raise TypeError) ∧
  (∃ df,
     Spark.read_song_json failing_session "s3a://udacity-dend//song_data/*/*/*/*.json"
     = Some df ∧
     store after_failure !! "s3a://your-output-bucket//tbl_songs.parquet"
     = Some {| partition_by := ["year"; "artist_id"];
               data := SongsFrame (songs_table (Spark.rows df)) |} ∧
     store after_failure !! "s3a://your-output-bucket//tbl_artists.parquet"
     = Some {| partition_by := [];
               data := ArtistsFrame (artists_table (Spark.rows df)) |}) ∧
  (∀ w' e',
     process_song_data failing_session "s3a://udacity-dend/" "s3a://your-output-bucket/"
       empty_world = (w', Raise e') →
     main failing_session empty_world = (w', Raise e')).
Proof.
  apply (main_failure_keeps_catalog_output failing_session empty_world
           after_catalog after_failure TypeError).
  - vm_compute. reflexivity.
  - vm_compute. reflexivity.
Defined.

(** The failed run has written the songs, artists and users tables and
    neither the time nor the songplays table. *)
Example partial_output_after_null_ts :
  main failing_session empty_world = (after_failure, Raise TypeError) ∧
  is_Some (store after_failure !! "s3a://your-output-bucket//tbl_songs.parquet") ∧
  is_Some (store after_failure !! "s3a://your-output-bucket//tbl_artists.parquet") ∧
  is_Some (store after_failure !! "s3a://your-output-bucket//tbl_users.parquet") ∧
  store after_failure !! "s3a://your-output-bucket//tbl_time.parquet" = None ∧
  store after_failure !! "s3a://your-output-bucket//tbl_songplays.parquet" = None ∧
  "Job completed!" ∉ logged after_failure.
Proof.
  split; [vm_compute; reflexivity|].
  repeat split; try (vm_compute; by eexists); try (vm_compute; reflexivity).
  apply (bool_decide_unpack _). vm_compute. exact I.
Qed.

(** * Further properties of the transforms *)

(** ** The artists table *)

(** X1: The artists table holds exactly the renamed projections of the catalog
    records, each distinct row once. *)
Theorem artists_table_rows (df : list SongData.t) :
  NoDup (artists_table df) ∧
  ∀ a, a ∈ artists_table df ↔
       ∃ r, r ∈ df ∧
            a = Artists.mk (SongData.artist_id r) (SongData.artist_name r)
                  (SongData.artist_location r) (SongData.artist_latitude r)
                  (SongData.artist_longitude r).
Proof.
  split; [apply dropDuplicates_NoDup|].
  intros a. unfold artists_table. rewrite elem_of_dropDuplicates, list_elem_of_fmap.
  split; intros (r & ? & ?); exists r; done.
Qed.

(** X2: Every song of the songs table has its artist in the artists table. *)
Theorem songs_artist_in_artists_table (df : list SongData.t) (s : Songs.t) :
  s ∈ songs_table df →
  ∃ a, a ∈ artists_table df ∧ Artists.artist_id a = Songs.artist_id s.
Proof.
  intros Hs. apply elem_of_dropDuplicates, list_elem_of_fmap in Hs as (r & -> & Hr).
  eexists. split.
  - apply elem_of_dropDuplicates, list_elem_of_fmap. by exists r.
  - done.
Qed.

Lemma songs_artist_in_artists_table_witness :
  ∃ a, a ∈ artists_table [catalog_S1; catalog_S2] ∧
       Artists.artist_id a
       = Songs.artist_id (Songs.mk (Some "S2") (Some "T2") (Some "A1") (Some 2001)
                            (Some (Q2Qc (2000 # 10)))).
Proof.
  apply songs_artist_in_artists_table.
  apply elem_of_dropDuplicates. right. left.
Defined.

(** ** The runs of [process_song_data] *)

(** X3: [process_song_data] succeeds exactly when the catalog is found, its
    frame has the columns of the songs select and of the artists select, and
    both output paths are free; it then adds the songs data set, partitioned
    by year and artist_id, and the unpartitioned artists data set, and logs
    its three messages. *)
Theorem process_song_data_succeeds_iff spark i o w w' :
  process_song_data spark i o w = (w', Ok ()) ↔
  ∃ df, Spark.read_song_json spark (i +:+ "/song_data/*/*/*/*.json") = Some df ∧
        Spark.has_columns songs_columns (Spark.columns df) ∧
        Spark.has_columns artists_columns (Spark.columns df) ∧
        store w !! (o +:+ "/tbl_songs.parquet") = None ∧
        store w !! (o +:+ "/tbl_artists.parquet") = None ∧
        w' = {| store := <[o +:+ "/tbl_artists.parquet" := artists_parquet (Spark.rows df)]>
                           (<[o +:+ "/tbl_songs.parquet" := songs_parquet (Spark.rows df)]>
                              (store w));
                logged := logged w ++ song_messages |}.
Proof.
  rewrite process_song_data_cases. split.
  - destruct (Spark.read_song_json spark _) as [df|]; [|done]. cbv zeta.
    case_decide; [|done].
    destruct (store w !! (o +:+ "/tbl_songs.parquet")); [done|].
    case_decide; [|done].
    destruct (store w !! (o +:+ "/tbl_artists.parquet")); [done|].
    intros [= <-]. by exists df.
  - intros (df & -> & Hsongs & Hartists & -> & -> & ->). cbv zeta.
    by rewrite !decide_True by done.
Qed.

(** X4: When [process_song_data] raises, the exception is an
    [AnalysisException].  Either nothing has been written: the catalog was
    not found, its frame lacks a column of the songs select, or the songs
    path was taken.  Or the songs data set, and nothing else, has been
    written: the frame lacks a column of the artists select, or the artists
    path was taken. *)
Theorem process_song_data_failure spark i o w w' e :
  process_song_data spark i o w = (w', Raise e) →
  e = AnalysisException ∧
  ((store w' = store w ∧
    (Spark.read_song_json spark (i +:+ "/song_data/*/*/*/*.json") = None ∨
     ∃ df, Spark.read_song_json spark (i +:+ "/song_data/*/*/*/*.json") = Some df ∧
           (¬ Spark.has_columns songs_columns (Spark.columns df) ∨
            is_Some (store w !! (o +:+ "/tbl_songs.parquet"))))) ∨
   ∃ df, Spark.read_song_json spark (i +:+ "/song_data/*/*/*/*.json") = Some df ∧
         Spark.has_columns songs_columns (Spark.columns df) ∧
         store w !! (o +:+ "/tbl_songs.parquet") = None ∧
         (¬ Spark.has_columns artists_columns (Spark.columns df) ∨
          is_Some (store w !! (o +:+ "/tbl_artists.parquet"))) ∧
         store w' = <[o +:+ "/tbl_songs.parquet" := songs_parquet (Spark.rows df)]>
                      (store w)).
Proof.
  rewrite process_song_data_cases.
  destruct (Spark.read_song_json spark _) as [df|]; [|intros [= <- <-]; auto].
  cbv zeta. case_decide as Hsongs.
  2:{ intros [= <- <-]. split; [done|]. left. split; [done|]. right. exists df. auto. }
  destruct (store w !! (o +:+ "/tbl_songs.parquet")) eqn:Hpath.
  { intros [= <- <-]. split; [done|]. left. split; [done|]. right. exists df.
    split; [done|]. right. by eexists. }
  case_decide as Hartists.
  - destruct (store w !! (o +:+ "/tbl_artists.parquet")) eqn:Hpath'; [|done].
    intros [= <- <-]. split; [done|]. right. exists df.
    repeat split; try done. right. by eexists.
  - intros [= <- <-]. split; [done|]. right. exists df.
    repeat split; try done. by left.
Qed.

Lemma process_song_data_failure_witness :
  AnalysisException = AnalysisException ∧
  ((store after_artists_taken = store artists_taken ∧
    (Spark.read_song_json (session 0 [catalog_S1] []) ("in" +:+ "/song_data/*/*/*/*.json")
     = None ∨
     ∃ df, Spark.read_song_json (session 0 [catalog_S1] [])
             ("in" +:+ "/song_data/*/*/*/*.json") = Some df ∧
           (¬ Spark.has_columns songs_columns (Spark.columns df) ∨
            is_Some (store artists_taken !! ("out" +:+ "/tbl_songs.parquet"))))) ∨
   ∃ df, Spark.read_song_json (session 0 [catalog_S1] []) ("in" +:+ "/song_data/*/*/*/*.json")
         = Some df ∧
         Spark.has_columns songs_columns (Spark.columns df) ∧
         store artists_taken !! ("out" +:+ "/tbl_songs.parquet") = None ∧
         (¬ Spark.has_columns artists_columns (Spark.columns df) ∨
          is_Some (store artists_taken !! ("out" +:+ "/tbl_artists.parquet"))) ∧
         store after_artists_taken
         = <["out" +:+ "/tbl_songs.parquet" := songs_parquet (Spark.rows df)]>
             (store artists_taken)).
Proof.
  apply (process_song_data_failure (session 0 [catalog_S1] []) "in" "out" artists_taken).
  vm_compute. reflexivity.
Defined.

(** The catalog object of the specification's example has no
    artist_location, artist_latitude or artist_longitude key: on it alone
    [process_song_data] writes the songs data set and raises at the artists
    select. *)
Example process_song_data_example_raises :
  process_song_data (json_session 0 [catalog_json] []) "in" "out" empty_world
  = ({| store := {[ "out/tbl_songs.parquet" := songs_parquet [catalog_S1] ]};
        logged := take 2 song_messages |},
     Raise AnalysisException).
Proof. vm_compute. reflexivity. Qed.

(** ** The runs of [process_log_data] *)


Lemma for_each_Raise {A B} (f : A → result B) (l : list A) (e : exn) :
  for_each f l = Raise e → ∃ a, a ∈ l ∧ f a = Raise e.
Proof.
  induction l as [|a l IH]; [done|]. simpl.
  destruct (f a) as [b|e'] eqn:Ha.
  - destruct (for_each f l) as [bs|e']; [done|].
    intros [= ->]. destruct IH as (a' & ? & ?); [done|].
    exists a'. split; [by right|done].
  - intros [= ->]. exists a. split; [left|done].
Qed.

Lemma for_each_elem_Raise {A B} (f : A → result B) (l : list A) (a : A) (e : exn) :
  a ∈ l → f a = Raise e → ∃ e', for_each f l = Raise e'.
Proof.
  intros Ha Hfa. induction l as [|a' l IH]; [by apply elem_of_nil in Ha|].
  simpl. apply elem_of_cons in Ha as [<-|Ha].
  - rewrite Hfa. by exists e.
  - destruct (f a') as [b|e']; [|by exists e'].
    destruct (IH Ha) as [e' ->]. by exists e'.
Qed.

(** The conversion of a timestamp raises [TypeError] for a null [ts] and
    [ValueError] for a [ts] whose local day is not a day of the years 1 to
    9999, and nothing else. *)
Lemma with_time_columns_Raise tz r e :
  with_time_columns tz r = Raise e →
  (e = TypeError ∧ LogData.ts r = None) ∨
  (e = ValueError ∧ ∃ x, LogData.ts r = Some x ∧ out_of_range tz x).
Proof.
  unfold with_time_columns, get_timestamp.
  destruct (LogData.ts r) as [x|]; [|intros [= <-]; by left].
  unfold Python.fromtimestamp.
  destruct (Python.double_to_timeval _) as [sec us] eqn:Hx.
  case_bool_decide as Hday; [done|]. intros [= <-]. right. split; [done|].
  exists x. split; [done|]. unfold out_of_range, local_day. rewrite Hx.
  change (Calendar.days_from_civil Python.MINYEAR 1 1) with (-719162) in *.
  change (Calendar.days_from_civil Python.MAXYEAR 12 31) with 2932896 in *.
  cbn [fst]. lia.
Qed.

(** X6: In a log frame that has the page column and the columns of the users
    select, a NextSong record with a null [ts] makes [process_log_data]
    raise after it has written the users data set: the time and songplays
    data sets are not written, and the exception is not an
    [AnalysisException]. *)
Theorem process_log_data_null_ts spark i o w logs a :
  Spark.read_log_json spark (i +:+ "log_data/*/*/*.json") = Some logs →
  Spark.has_columns ("page" :: users_columns) (Spark.columns logs) →
  store w !! (o +:+ "/tbl_users.parquet") = None →
  store w !! (o +:+ "/tbl_time.parquet") = None →
  a ∈ Spark.rows logs → LogData.page a = Some "NextSong" → LogData.ts a = None →
  ∃ w' e,
    process_log_data spark i o w = (w', Raise e) ∧ e ≠ AnalysisException ∧
    store w' = <[o +:+ "/tbl_users.parquet" :=
                   users_parquet (filter_next_song (Spark.rows logs))]>
                 (store w) ∧
    store w' !! (o +:+ "/tbl_time.parquet") = None ∧
    store w' !! (o +:+ "/tbl_songplays.parquet") = store w !! (o +:+ "/tbl_songplays.parquet").
Proof.
  intros Hlogs Hcols Husers Htime Ha Hpage Hts.
  rewrite process_log_data_cases, Hlogs. cbv zeta.
  rewrite decide_True, Husers, Htime by done.
  assert (Hrest : ∀ p, p = "/tbl_time.parquet" ∨ p = "/tbl_songplays.parquet" →
            (<[o +:+ "/tbl_users.parquet" :=
                 users_parquet (filter_next_song (Spark.rows logs))]> (store w))
              !! (o +:+ p) = store w !! (o +:+ p)).
  { intros p [-> | ->]; by rewrite lookup_insert_ne by (apply append_ne; done). }
  case_decide.
  - destruct (for_each_elem_Raise (with_time_columns (Spark.time_zone spark))
                (filter_next_song (Spark.rows logs)) a TypeError) as [e He].
    { by apply elem_of_filter_next_song. }
    { unfold with_time_columns. by rewrite Hts. }
    rewrite He. eexists _, e. split; [done|]. cbn [store].
    split.
    + apply for_each_Raise in He as (a' & _ & Ha').
      apply with_time_columns_Raise in Ha' as [[-> _]|[-> _]]; done.
    + split; [done|]. rewrite !Hrest by auto. done.
  - eexists _, _. split; [done|]. cbn [store]. split; [done|]. split; [done|].
    rewrite !Hrest by auto. done.
Qed.

Lemma process_log_data_null_ts_witness :
  ∃ w' e,
    process_log_data (session 0 [catalog_S1] [activity_home; activity_null_ts])
      "in/" "out" empty_world = (w', Raise e) ∧ e ≠ AnalysisException ∧
    store w' = <["out" +:+ "/tbl_users.parquet" :=
                   users_parquet
                     (filter_next_song
                        (Spark.rows (log_frame [activity_home; activity_null_ts])))]>
                 (store empty_world) ∧
    store w' !! ("out" +:+ "/tbl_time.parquet") = None ∧
    store w' !! ("out" +:+ "/tbl_songplays.parquet")
    = store empty_world !! ("out" +:+ "/tbl_songplays.parquet").
Proof.
  apply (process_log_data_null_ts (session 0 [catalog_S1] [activity_home; activity_null_ts])
           "in/" "out" empty_world (log_frame [activity_home; activity_null_ts])
           activity_null_ts);
    try reflexivity.
  - apply (bool_decide_unpack _). vm_compute. exact I.
  - right. left.
Defined.



(** A [ts] far beyond the year 9999 is a [ValueError]. *)
Example get_timestamp_out_of_range :
  get_timestamp 0 (Some (2 ^ 50)) = Raise ValueError ∧ out_of_range 0 (2 ^ 50).
Proof.
  split; [vm_compute; reflexivity|].
  apply (bool_decide_unpack _). vm_compute. exact I.
Qed.

Lemma filter_next_song_nil (logs : list LogData.t) :
  (∀ r, r ∈ logs → LogData.page r ≠ Some "NextSong") → filter_next_song logs = [].
Proof.
  intros Hnone. destruct (filter_next_song logs) as [|r l] eqn:Hf; [done|].
  assert (Hr : r ∈ filter_next_song logs) by (rewrite Hf; left).
  apply elem_of_filter_next_song in Hr as [Hpage Hr]. by destruct (Hnone r Hr).
Qed.

(** X8: A log without any NextSong record is no error: when the frames have
    the columns that are named, the users, time and songplays data sets are
    written, each without a row. *)
Theorem process_log_data_no_song_plays spark i o w logs song_df :
  Spark.read_log_json spark (i +:+ "log_data/*/*/*.json") = Some logs →
  Spark.read_song_json spark (i +:+ "song_data/*/*/*/*.json") = Some song_df →
  Spark.has_columns ("page" :: users_columns) (Spark.columns logs) →
  "ts" ∈ Spark.columns logs →
  "artist_name" ∈ joined_song_columns song_df →
  "artist" ∈ joined_log_columns logs →
  songplays_select_ok logs song_df →
  (∀ r, r ∈ Spark.rows logs → LogData.page r ≠ Some "NextSong") →
  store w !! (o +:+ "/tbl_users.parquet") = None →
  store w !! (o +:+ "/tbl_time.parquet") = None →
  store w !! (o +:+ "/tbl_songplays.parquet") = None →
  ∃ w', process_log_data spark i o w = (w', Ok ()) ∧
        store w' !! (o +:+ "/tbl_users.parquet")
        = Some {| partition_by := []; data := UsersFrame [] |} ∧
        store w' !! (o +:+ "/tbl_time.parquet")
        = Some {| partition_by := ["year"; "month"]; data := TimeFrame [] |} ∧
        store w' !! (o +:+ "/tbl_songplays.parquet")
        = Some {| partition_by := ["year"; "month"]; data := SongplaysFrame [] |}.
Proof.
  intros Hlogs Hsongs Hcols Hts Hname Hartist Hsel Hnone Husers Htime Hplays.
  apply filter_next_song_nil in Hnone.
  eexists. split.
  - apply (process_log_data_Ok spark i o w logs song_df []); try done.
    by rewrite Hnone.
  - cbn [store].
    rewrite lookup_insert_eq.
    rewrite (lookup_insert_ne _ (o +:+ "/tbl_songplays.parquet") (o +:+ "/tbl_time.parquet"))
      by (apply append_ne; done).
    rewrite lookup_insert_eq.
    rewrite !(lookup_insert_ne _ _ (o +:+ "/tbl_users.parquet")) by (apply append_ne; done).
    rewrite lookup_insert_eq. rewrite Hnone.
    unfold songplays_parquet, songplays_table. cbn [Spark.join mbind list_bind].
    by rewrite with_id_nil.
Qed.

Lemma process_log_data_no_song_plays_witness :
  ∃ w', process_log_data (session 0 [catalog_S1] [activity_home]) "in/" "out" empty_world
        = (w', Ok ()) ∧
        store w' !! ("out" +:+ "/tbl_users.parquet")
        = Some {| partition_by := []; data := UsersFrame [] |} ∧
        store w' !! ("out" +:+ "/tbl_time.parquet")
        = Some {| partition_by := ["year"; "month"]; data := TimeFrame [] |} ∧
        store w' !! ("out" +:+ "/tbl_songplays.parquet")
        = Some {| partition_by := ["year"; "month"]; data := SongplaysFrame [] |}.
Proof.
  apply (process_log_data_no_song_plays (session 0 [catalog_S1] [activity_home])
           "in/" "out" empty_world (log_frame [activity_home]) (song_frame [catalog_S1]));
    try reflexivity;
    try (apply (bool_decide_unpack _); vm_compute; exact I).
  intros r Hr. apply list_elem_of_singleton in Hr as ->. discriminate.
Defined.

(** ** The runs of [main] *)

Lemma output_paths_spec (p : string) :
  p ∈ output_paths ↔
  p = "s3a://your-output-bucket/" +:+ "/tbl_songs.parquet" ∨
  p = "s3a://your-output-bucket/" +:+ "/tbl_artists.parquet" ∨
  p = "s3a://your-output-bucket/" +:+ "/tbl_users.parquet" ∨
  p = "s3a://your-output-bucket/" +:+ "/tbl_time.parquet" ∨
  p = "s3a://your-output-bucket/" +:+ "/tbl_songplays.parquet".
Proof.
  unfold output_paths. rewrite !elem_of_cons, elem_of_nil. simpl. tauto.
Qed.


(** X10: After a run that succeeded, a second run of [main] on what the first
    left stops at its first write: the songs path exists, the run raises an
    [AnalysisException] and the store stays as it was. *)
Theorem main_second_run_fails spark w w' :
  main spark w = (w', Ok ()) →
  ∃ w'', main spark w' = (w'', Raise AnalysisException) ∧
         store w'' = store w' ∧
         logged w'' = logged w' ++ take 2 song_messages.
Proof.
  rewrite main_run.
  destruct (process_song_data _ _ _ w) as [w1 [[]|e]] eqn:Hsong; [|done].
  destruct (process_log_data _ _ _ w1) as [w2 [[]|e]] eqn:Hlog; [|done].
  intros [= <-].
  apply keeps_store_process_log_data in Hlog.
  rewrite process_song_data_cases in Hsong.
  rewrite main_run, process_song_data_cases. unfold logger_info. cbn [store logged].
  destruct (Spark.read_song_json spark _) as [df|]; [|done]. cbv zeta in *.
  case_decide; [|done].
  destruct (store w !! ("s3a://your-output-bucket/" +:+ "/tbl_songs.parquet")); [done|].
  case_decide; [|done].
  destruct (store w !! ("s3a://your-output-bucket/" +:+ "/tbl_artists.parquet")); [done|].
  injection Hsong as <-. cbn [store] in Hlog.
  erewrite (lookup_weaken _ (store w2)); [| |exact Hlog].
  2:{ rewrite lookup_insert_ne by (apply append_ne; done). apply lookup_insert_eq. }
  by eexists.
Qed.

Lemma main_second_run_fails_witness :
  ∃ w'', main example_session after_main = (w'', Raise AnalysisException) ∧
         store w'' = store after_main ∧
         logged w'' = logged after_main ++ take 2 song_messages.
Proof.
  apply (main_second_run_fails example_session empty_world after_main).
  vm_compute. reflexivity.
Defined.

(** ** What a run leaves untouched *)

Lemma keeps_store_main spark : keeps_store (main spark).
Proof.
  unfold main. cbv zeta.
  repeat first
    [ apply keeps_store_process_song_data
    | apply keeps_store_process_log_data
    | apply keeps_store_logger_info
    | apply keeps_store_bind; [|intros ?] ].
Qed.

Lemma writes_within_bind {A B} ps (m : job A) (f : A → job B) :
  writes_within ps m → (∀ a, writes_within ps (f a)) → writes_within ps (m ≫= f).
Proof.
  intros Hm Hf w w' r. unfold mbind, job_mbind, job_bind.
  destruct (m w) as [w1 [a|e]] eqn:Hmw.
  - intros Hfw p Hp. rewrite (Hf a _ _ _ Hfw p Hp). by eapply Hm.
  - intros [= <- <-]. by eapply Hm.
Qed.

Lemma writes_within_logger_info ps msg : writes_within ps (logger_info msg).
Proof. by intros w w' r [= <- <-]. Qed.

Lemma writes_within_read_json {C A} ps (reader : string → option (Spark.DataFrame C A))
    path :
  writes_within ps (read_json reader path).
Proof.
  intros w w' r. unfold read_json. by destruct (reader path); intros [= <- <-].
Qed.

Lemma writes_within_select ps names cols : writes_within ps (select names cols).
Proof. intros w w' r. unfold select. by case_decide; intros [= <- <-]. Qed.

Lemma writes_within_select_joined ps names left right :
  writes_within ps (select_joined names left right).
Proof. intros w w' r. unfold select_joined. by case_decide; intros [= <- <-]. Qed.

Lemma writes_within_getattr ps name cols : writes_within ps (getattr name cols).
Proof. intros w w' r. unfold getattr. by case_decide; intros [= <- <-]. Qed.

Lemma writes_within_write_parquet ps cols path df :
  path ∈ ps → writes_within ps (write_parquet cols path df).
Proof.
  intros Hpath w w' r. unfold write_parquet.
  destruct (store w !! path) eqn:Hlook; [by intros [= <- <-]|].
  destruct df; intros [= <- <-] p Hp; [|done].
  simpl. apply lookup_insert_ne. intros ->. done.
Qed.

Lemma writes_within_main spark : writes_within output_paths (main spark).
Proof.
  unfold main, process_song_data, process_log_data. cbv zeta.
  repeat first
    [ apply writes_within_bind; [|intros ?]
    | apply writes_within_logger_info
    | apply writes_within_read_json
    | apply writes_within_select
    | apply writes_within_select_joined
    | apply writes_within_getattr
    | apply writes_within_write_parquet; apply output_paths_spec; tauto ].
Qed.

(** X11: Whatever way a run of [main] ends, it has not removed or replaced any
    data set that was in the store, and it has changed the store at none but
    its five output paths. *)
Theorem main_store_frame spark w w' r :
  main spark w = (w', r) →
  (∀ p d, store w !! p = Some d → store w' !! p = Some d) ∧
  (∀ p, p ∉ output_paths → store w' !! p = store w !! p).
Proof.
  intros Hrun. split.
  - intros p d Hp. eapply lookup_weaken; [done|]. by eapply keeps_store_main.
  - by eapply writes_within_main.
Qed.

Lemma main_store_frame_witness :
  (∀ p d, store artists_taken !! p = Some d →
          store (main failing_session artists_taken).1 !! p = Some d) ∧
  (∀ p, p ∉ output_paths →
        store (main failing_session artists_taken).1 !! p = store artists_taken !! p).
Proof.
  apply (main_store_frame failing_session artists_taken _
           (main failing_session artists_taken).2).
  by destruct (main failing_session artists_taken).
Defined.

(** ** The log of a run *)

Lemma process_song_data_logged spark i o w w' r :
  process_song_data spark i o w = (w', r) →
  ∃ k, logged w' = logged w ++ take k song_messages ∧
       (r = Ok () → logged w' = logged w ++ song_messages).
Proof.
  rewrite process_song_data_cases.
  destruct (Spark.read_song_json spark _); [|intros [= <- <-]; by exists 1%nat].
  cbv zeta. case_decide; [|intros [= <- <-]; by exists 1%nat].
  destruct (store w !! (o +:+ "/tbl_songs.parquet"));
    [intros [= <- <-]; by exists 2%nat|].
  case_decide; [|intros [= <- <-]; by exists 2%nat].
  destruct (store w !! (o +:+ "/tbl_artists.parquet"));
    intros [= <- <-]; by exists 3%nat.
Qed.

Lemma process_log_data_logged spark i o w w' r :
  process_log_data spark i o w = (w', r) →
  ∃ k, logged w' = logged w ++ take k log_messages ∧
       (r = Ok () → logged w' = logged w ++ log_messages).
Proof.
  rewrite process_log_data_cases.
  destruct (Spark.read_log_json spark _); [|intros [= <- <-]; by exists 1%nat].
  cbv zeta. case_decide; [|intros [= <- <-]; by exists 1%nat].
  destruct (store w !! (o +:+ "/tbl_users.parquet"));
    [intros [= <- <-]; by exists 2%nat|].
  case_decide; [|intros [= <- <-]; by exists 2%nat].
  destruct (store w !! (o +:+ "/tbl_time.parquet"));
    [intros [= <- <-]; by exists 3%nat|].
  destruct (for_each _ _); [|intros [= <- <-]; by exists 3%nat].
  destruct (Spark.read_song_json spark _); [|intros [= <- <-]; by exists 4%nat].
  case_decide; [|intros [= <- <-]; by exists 4%nat].
  case_decide; [|intros [= <- <-]; by exists 4%nat].
  destruct (store w !! (o +:+ "/tbl_songplays.parquet"));
    intros [= <- <-]; by exists 5%nat.
Qed.

(** X12: A run of [main] only appends to the log, and what it appends is a
    beginning of the nine messages of a whole run, in their order; the last
    of them, "Job completed!", is logged exactly when the run succeeds. *)
Theorem main_logged spark w w' r :
  main spark w = (w', r) →
  ∃ l, logged w' = logged w ++ l ∧
       l `prefix_of` main_messages ∧
       (r = Ok () ↔ "Job completed!" ∈ l).
Proof.
  rewrite main_run.
  destruct (process_song_data _ _ _ w) as [w1 [[]|e]] eqn:Hsong.
  - apply process_song_data_logged in Hsong as (_ & _ & Hl1). specialize (Hl1 eq_refl).
    destruct (process_log_data _ _ _ w1) as [w2 [[]|e]] eqn:Hlog.
    + apply process_log_data_logged in Hlog as (_ & _ & Hl2). specialize (Hl2 eq_refl).
      intros [= <- <-]. exists main_messages. cbn [logged].
      split; [|split; [done|]].
      * rewrite Hl2, Hl1. unfold main_messages. by rewrite <- !app_assoc.
      * split; [intros _|done]. by apply (bool_decide_unpack _).
    + apply process_log_data_logged in Hlog as (k & Hl2 & _).
      intros [= <- <-]. exists (song_messages ++ take k log_messages).
      split; [by rewrite Hl2, Hl1, <- app_assoc|]. split.
      * unfold main_messages. apply prefix_app, prefix_app_r, prefix_take.
      * split; [done|]. intros Hin. exfalso.
        apply elem_of_app in Hin as [Hin|Hin].
        -- revert Hin. by apply (bool_decide_unpack _).
        -- eapply elem_of_prefix in Hin; [|apply prefix_take].
           revert Hin. by apply (bool_decide_unpack _).
  - apply process_song_data_logged in Hsong as (k & Hl1 & _).
    intros [= <- <-]. exists (take k song_messages). split; [done|]. split.
    + unfold main_messages. apply prefix_app_r, prefix_take.
    + split; [done|]. intros Hin. exfalso.
      eapply elem_of_prefix in Hin; [|apply prefix_take].
      revert Hin. by apply (bool_decide_unpack _).
Qed.

Lemma main_logged_witness :
  ∃ l, logged after_failure = logged empty_world ++ l ∧
       l `prefix_of` main_messages ∧
       (Raise TypeError = Ok () ↔ "Job completed!" ∈ l).
Proof.
  apply (main_logged failing_session empty_world after_failure (Raise TypeError)).
  vm_compute. reflexivity.
Defined.

(** ** The songplays table against the other tables *)

Lemma elem_of_songplays_table sizes df song_df p :
  p ∈ songplays_table sizes df song_df →
  ∃ id row s, p = songplay (id, (row, s)) ∧ row ∈ df ∧ s ∈ song_df ∧
              is_true (join_condition row s) = true.
Proof.
  intros Hp. apply list_elem_of_fmap in Hp as ([id [row s]] & -> & Hin).
  apply elem_of_with_id, elem_of_join in Hin as (Hrow & Hs & Hon).
  by exists id, row, s.
Qed.

(** X13: Every row of the songplays table refers to rows that exist: its
    start_time, month and year are those of a row of the time table, its
    user_id and level those of a row of the users table, and, for the catalog
    the join was made with, its song_id and artist_id are those of a row of
    the songs table and its artist_id that of a row of the artists table. *)
Theorem songplays_refer_to_dimension_rows (tz : Z) (sizes : list nat)
    (logs : list LogData.t) (df : list LogRow.t) (song_df : list SongData.t)
    (p : Songplays.t) :
  for_each (with_time_columns tz) (filter_next_song logs) = Ok df →
  p ∈ songplays_table sizes df song_df →
  (∃ t, t ∈ time_table df ∧ Time.start_time t = Songplays.start_time p ∧
        Time.month t = Songplays.month p ∧ Time.year t = Songplays.year p) ∧
  (∃ u, u ∈ users_table (filter_next_song logs) ∧
        Users.user_id u = Songplays.user_id p ∧ Users.level u = Songplays.level p) ∧
  (∃ s, s ∈ songs_table song_df ∧ Songs.song_id s = Songplays.song_id p ∧
        Songs.artist_id s = Songplays.artist_id p) ∧
  (∃ a, a ∈ artists_table song_df ∧ Artists.artist_id a = Songplays.artist_id p).
Proof.
  intros Hdf Hp.
  apply elem_of_songplays_table in Hp as (id & row & s & -> & Hrow & Hs & _).
  assert (Hrec : LogRow.rec row ∈ filter_next_song logs).
  { apply for_each_Ok_Forall in Hdf. rewrite Forall_forall in Hdf.
    destruct (Hdf row Hrow) as (a & Ha & Hrun).
    by apply with_time_columns_Ok in Hrun as (_ & -> & _). }
  split; [|split; [|split]].
  - exists (project_time row). split; [|done].
    apply elem_of_dropDuplicates, list_elem_of_fmap. by exists row.
  - eexists. split.
    + apply elem_of_dropDuplicates, list_elem_of_fmap. by exists (LogRow.rec row).
    + done.
  - eexists. split.
    + apply elem_of_dropDuplicates, list_elem_of_fmap. by exists s.
    + done.
  - eexists. split.
    + apply elem_of_dropDuplicates, list_elem_of_fmap. by exists s.
    + done.
Qed.

Lemma songplays_refer_to_dimension_rows_witness :
  (∃ t, t ∈ time_table [sample_row] ∧
        Time.start_time t = Songplays.start_time sample_songplay ∧
        Time.month t = Songplays.month sample_songplay ∧
        Time.year t = Songplays.year sample_songplay) ∧
  (∃ u, u ∈ users_table (filter_next_song [activity_home; user_U1 "free"]) ∧
        Users.user_id u = Songplays.user_id sample_songplay ∧
        Users.level u = Songplays.level sample_songplay) ∧
  (∃ s, s ∈ songs_table [catalog_S1; catalog_S2] ∧
        Songs.song_id s = Songplays.song_id sample_songplay ∧
        Songs.artist_id s = Songplays.artist_id sample_songplay) ∧
  (∃ a, a ∈ artists_table [catalog_S1; catalog_S2] ∧
        Artists.artist_id a = Songplays.artist_id sample_songplay).
Proof.
  apply (songplays_refer_to_dimension_rows 0 [] [activity_home; user_U1 "free"]
           [sample_row] [catalog_S1; catalog_S2] sample_songplay).
  - vm_compute. reflexivity.
  - right. left.
Defined.

(** X14: The partition layout decides the identifiers and nothing else: with the
    identifiers blanked, the songplays table is the list of the joined rows,
    whatever the layout, and it has as many rows as the join. *)
Theorem songplays_layout_independent (sizes : list nat) (df : list LogRow.t)
    (song_df : list SongData.t) :
  without_id <$> songplays_table sizes df song_df
  = (λ x, songplay (0, x)) <$> Spark.join join_condition df song_df ∧
  length (songplays_table sizes df song_df)
  = length (Spark.join join_condition df song_df).
Proof.
  unfold songplays_table. split.
  - rewrite <- (concat_partitions sizes (Spark.join join_condition df song_df)) at 2.
    rewrite with_id_from_0, <- (with_id_from_snd 0), <- !list_fmap_compose.
    apply list_fmap_ext. by intros _ [id [r s]] _.
  - by rewrite length_fmap, length_with_id.
Qed.

(** ** Null names in the join *)

Lemma filter_none {A} (P : A → Prop) `{∀ x, Decision (P x)} (l : list A) :
  (∀ x, ¬ P x) → filter P l = [].
Proof.
  intros HP. induction l as [|x l IH]; [done|].
  by rewrite filter_cons_False by apply HP.
Qed.

Lemma join_filter_left (P : LogRow.t → Prop) `{∀ r, Decision (P r)}
    (df : list LogRow.t) (song_df : list SongData.t) :
  (∀ r s, is_true (join_condition r s) = true → P r) →
  Spark.join join_condition (filter P df) song_df = Spark.join join_condition df song_df.
Proof.
  intros HP. induction df as [|r df IH]; [done|].
  destruct (decide (P r)) as [Hr|Hr].
  - rewrite filter_cons_True by done. by rewrite !join_cons, IH.
  - rewrite filter_cons_False by done. rewrite join_cons, IH.
    rewrite filter_none; [done|]. intros s Hrs. by apply Hr, (HP r s).
Qed.

Lemma join_filter_right (Q : SongData.t → Prop) `{∀ s, Decision (Q s)}
    (df : list LogRow.t) (song_df : list SongData.t) :
  (∀ r s, is_true (join_condition r s) = true → Q s) →
  Spark.join join_condition df (filter Q song_df) = Spark.join join_condition df song_df.
Proof.
  intros HQ. induction df as [|r df IH]; [done|].
  rewrite !join_cons, IH. f_equal. f_equal.
  apply list_filter_filter_l. intros s. apply HQ.
Qed.

(** X15: A null never matches in the join, not even another null: the records
    of the log without an artist and the catalog records without an
    artist_name can be left out without changing the songplays table. *)
Theorem songplays_ignore_null_names (sizes : list nat) (df : list LogRow.t)
    (song_df : list SongData.t) :
  songplays_table sizes df song_df
  = songplays_table sizes
      (filter (λ r, is_Some (LogData.artist (LogRow.rec r))) df)
      (filter (λ s, is_Some (SongData.artist_name s)) song_df).
Proof.
  unfold songplays_table.
  rewrite join_filter_right, join_filter_left; [done|..].
  - intros r s Hrs. apply join_condition_true in Hrs as (name & _ & ->). eauto.
  - intros r s Hrs. apply join_condition_true in Hrs as (name & -> & _). eauto.
Qed.

(** ** The calendar columns *)
Section calendar.
Import Calendar.

(** The year of the era and the day of the year that [civil_from_days]
    computes from a day of the 400-year era. *)
Lemma yoe_doy_range (doe : Z) :
  0 ≤ doe ≤ 146096 →
  let yoe := (doe - doe / 1460 + doe / 36524 - doe / 146096) / 365 in
  let doy := doe - (365 * yoe + yoe / 4 - yoe / 100) in
  0 ≤ yoe ≤ 399 ∧ 0 ≤ doy ≤ 365.
Proof. intros H yoe doy. subst yoe doy. Z.div_mod_to_equations. lia. Qed.

(** [civil_from_days] gives a month in 1..12 and a day in 1..31, and
    [days_from_civil] leads back from the date to the day number. *)
Lemma civil_from_days_spec (z : Z) :
  1 ≤ month_of z ≤ 12 ∧ 1 ≤ day_of z ≤ 31 ∧
  days_from_civil (year_of z) (month_of z) (day_of z) = z.
Proof.
  unfold month_of, day_of, year_of, civil_from_days.
  set (era := (z + 719468) / 146097).
  set (doe := z + 719468 - era * 146097).
  assert (Hdoe : 0 ≤ doe ≤ 146096) by (unfold doe, era; Z.div_mod_to_equations; lia).
  assert (Hz : z = era * 146097 + doe - 719468) by (unfold doe; lia).
  clearbody doe era. subst z.
  destruct (yoe_doy_range doe Hdoe) as (Hyoe & Hdoy).
  set (yoe := (doe - doe / 1460 + doe / 36524 - doe / 146096) / 365) in *.
  assert (Hdoy' : doe = 365 * yoe + yoe / 4 - yoe / 100
                        + (doe - (365 * yoe + yoe / 4 - yoe / 100))) by lia.
  set (doy := doe - (365 * yoe + yoe / 4 - yoe / 100)) in *.
  clearbody doy yoe.
  set (mp := (5 * doy + 2) / 153).
  assert (Hmp : 0 ≤ mp ≤ 11) by (unfold mp; Z.div_mod_to_equations; lia).
  assert (Hd : 1 ≤ doy - (153 * mp + 2) / 5 + 1 ≤ 31)
    by (unfold mp; Z.div_mod_to_equations; lia).
  cbn [fst snd].
  unfold days_from_civil.
  destruct (mp <? 10) eqn:Hlt; [apply Z.ltb_lt in Hlt|apply Z.ltb_ge in Hlt].
  - rewrite (proj2 (Z.leb_gt (mp + 3) 2)) by lia.
    rewrite (proj2 (Z.ltb_lt 2 (mp + 3))) by lia.
    replace (mp + 3 - 3) with mp by lia.
    split; [lia|]. split; [lia|].
    replace ((yoe + era * 400) / 400) with era by (Z.div_mod_to_equations; lia).
    replace (yoe + era * 400 - era * 400) with yoe by lia. lia.
  - rewrite (proj2 (Z.leb_le (mp - 9) 2)) by lia.
    rewrite (proj2 (Z.ltb_ge 2 (mp - 9))) by lia.
    replace (mp - 9 + 9) with mp by lia.
    split; [lia|]. split; [lia|].
    replace (yoe + era * 400 + 1 - 1) with (yoe + era * 400) by lia.
    replace ((yoe + era * 400) / 400) with era by (Z.div_mod_to_equations; lia).
    replace (yoe + era * 400 - era * 400) with yoe by lia. lia.
Qed.

(** A date of the year [y] lies at most 365 days after its first of January. *)
Lemma days_from_civil_yday (y m d : Z) :
  1 ≤ m ≤ 12 → 1 ≤ d ≤ 31 →
  0 ≤ days_from_civil y m d - days_from_civil y 1 1 ≤ 365.
Proof.
  intros Hm Hd. unfold days_from_civil.
  change (1 <=? 2) with true. change (2 <? 1) with false. cbv iota.
  destruct (m <=? 2) eqn:Hle; [apply Z.leb_le in Hle|apply Z.leb_gt in Hle].
  - rewrite (proj2 (Z.ltb_ge 2 m)) by lia. Z.div_mod_to_equations. lia.
  - rewrite (proj2 (Z.ltb_lt 2 m)) by lia. Z.div_mod_to_equations. lia.
Qed.

Lemma yday_range (z : Z) : 0 ≤ yday z ≤ 365.
Proof.
  unfold yday. destruct (civil_from_days_spec z) as (Hm & Hd & Hz).
  rewrite <- Hz at 1 3. by apply days_from_civil_yday.
Qed.

Lemma iso_week_of_range (z : Z) : 1 ≤ iso_week_of z ≤ 53.
Proof.
  unfold iso_week_of.
  pose proof (yday_range (z - (z + 3) mod 7 + 3)) as H. unfold yday in H.
  Z.div_mod_to_equations. lia.
Qed.

End calendar.

(** X16: The time columns of every row are in their calendar ranges: hour in
    0..23, day in 1..31, week in 1..53, month in 1..12 and weekday in 1..7. *)
Theorem time_columns_ranges (tz : Z) (r : LogData.t) (row : LogRow.t) :
  with_time_columns tz r = Ok row →
  0 ≤ LogRow.hour row ≤ 23 ∧ 1 ≤ LogRow.day row ≤ 31 ∧
  1 ≤ LogRow.week row ≤ 53 ∧ 1 ≤ LogRow.month row ≤ 12 ∧
  1 ≤ LogRow.weekday row ≤ 7.
Proof.
  intros Hrow. apply with_time_columns_Ok in Hrow as (_ & _ & Hrow).
  injection Hrow as Hhr Hdy Hwk Hmo _ Hwd. rewrite Hwd, Hmo, Hwk, Hdy, Hhr.
  destruct (civil_from_days_spec (Spark.local_days tz (LogRow.start_time row)))
    as (Hm & Hd & _).
  split; [|split; [done|split; [apply iso_week_of_range|split; [done|]]]].
  - unfold Spark.hour. Z.div_mod_to_equations. lia.
  - apply dayofweek_spec.
Qed.

Lemma time_columns_ranges_witness :
  0 ≤ LogRow.hour sample_row ≤ 23 ∧ 1 ≤ LogRow.day sample_row ≤ 31 ∧
  1 ≤ LogRow.week sample_row ≤ 53 ∧ 1 ≤ LogRow.month sample_row ≤ 12 ∧
  1 ≤ LogRow.weekday sample_row ≤ 7.
Proof.
  apply (time_columns_ranges 0 (user_U1 "free") sample_row). reflexivity.
Defined.

(** X17: The year, month, day and hour columns of a row name the hour of the
    local wall clock in which its start_time falls: the date leads back to
    the local day of start_time, and the hour is the hour of that day. *)
Theorem time_columns_name_the_local_hour (tz : Z) (r : LogData.t) (row : LogRow.t) :
  with_time_columns tz r = Ok row →
  (Calendar.days_from_civil (LogRow.year row) (LogRow.month row) (LogRow.day row) * 24
   + LogRow.hour row) * 3600
  ≤ LogRow.start_time row / 1000000 + tz
  < (Calendar.days_from_civil (LogRow.year row) (LogRow.month row) (LogRow.day row) * 24
     + LogRow.hour row + 1) * 3600.
Proof.
  intros Hrow. apply with_time_columns_Ok in Hrow as (_ & _ & Hrow).
  injection Hrow as Hhr Hdy _ Hmo Hyr _. rewrite Hyr, Hmo, Hdy, Hhr.
  destruct (civil_from_days_spec (Spark.local_days tz (LogRow.start_time row)))
    as (_ & _ & Hz).
  unfold Spark.year, Spark.month, Spark.dayofmonth. rewrite Hz.
  unfold Spark.hour, Spark.local_days, Spark.local_seconds.
  Z.div_mod_to_equations. lia.
Qed.

Lemma time_columns_name_the_local_hour_witness :
  (Calendar.days_from_civil (LogRow.year sample_row) (LogRow.month sample_row)
     (LogRow.day sample_row) * 24 + LogRow.hour sample_row) * 3600
  ≤ LogRow.start_time sample_row / 1000000 + 0
  < (Calendar.days_from_civil (LogRow.year sample_row) (LogRow.month sample_row)
       (LogRow.day sample_row) * 24 + LogRow.hour sample_row + 1) * 3600.
Proof.
  apply (time_columns_name_the_local_hour 0 (user_U1 "free") sample_row). reflexivity.
Defined.
